(** * Binary encoding of Uplink transaction headers and values

    A shallow embedding of the encoders of [uplink/protocol.py] together
    with the parts of the Python 3 runtime they rest on: [str] as a
    sequence of code points, [bytes] as a sequence of octets, [float]
    as an IEEE-754 value, [str.encode] (UTF-8, strict), [struct.pack]
    with big-endian format codes, [dict] with insertion order, [sorted]
    and [datetime.date].

    The source is Python 3 code: text is encoded before it is packed
    into an [s] field, and a [bytes] object is never equal to a [str].

    Exceptions are explicit: every encoder returns a [result], either
    [Ok] with the produced bytes or [Raise] with the Python exception.

    The module [uplink.enum] (tag constants), the function
    [base58.b58decode] and the functions of [uplink.cryptography] are not
    part of [protocol.py]; the encoders take them as parameters. *)

From Stdlib Require Import ZArith NArith List String Ascii Lia.
From Stdlib.Strings Require Import Byte.
From Stdlib.Floats Require Import SpecFloat.
From stdpp Require Import base option list sorting gmap strings.

Local Open Scope Z_scope.

(** ** Python values, exceptions and the error monad *)

(** [str]: code points; [bytes]: octets. *)
Abbreviation str := (list N).
Abbreviation bytes := (list byte).

(** An ASCII literal as a Python [str]. *)
Definition lit (s : string) : str := N_of_ascii <$> list_ascii_of_string s.

Inductive exn : Type :=
  | ValueError (msg : str)
  | TypeError
  | KeyError
  | AttributeError (attr : string)
  | UnicodeEncodeError
  | StructError
  | OverflowError
  | NotImplementedError.

Inductive result (A : Type) : Type :=
  | Ok (a : A)
  | Raise (e : exn).
Arguments Ok {A} a.
Arguments Raise {A} e.

#[global] Instance result_ret : MRet result := fun A a => Ok a.
#[global] Instance result_bind : MBind result := fun A B f m =>
  match m with
  | Ok a => f a
  | Raise e => Raise e
  end.

Definition returns {A} (m : result A) : Prop := exists a, m = Ok a.

(** The values that reach the encoders: [None], [int], [float] (sign,
    mantissa and binary exponent, or a zero, an infinity or a NaN),
    [str], [bytes], and [PyObj cls], an instance of another class [cls]
    (a bound method, a [tzinfo]): it is no number, has no length and no
    [encode]. *)
Inductive pyval : Type :=
  | PyNone
  | PyInt (z : Z)
  | PyFloat (f : spec_float)
  | PyStr (s : str)
  | PyBytes (b : bytes)
  | PyObj (cls : string).

#[global] Instance byte_eq_dec : EqDecision byte.
Proof. intros a b. destruct (Byte.eqb a b) eqn:E.
  - left. now apply Byte.byte_dec_bl.
  - right. intros ->. now rewrite (Byte.byte_dec_lb eq_refl) in E.
Defined.

#[global] Instance spec_float_eq_dec : EqDecision spec_float.
Proof. solve_decision. Defined.

#[global] Instance pyval_eq_dec : EqDecision pyval.
Proof. solve_decision. Defined.

(** The integer a float is equal to, when it is equal to one: [2.0]
    gives 2, [2.5], the infinities and NaN give none. *)
Definition float_int_value (f : spec_float) : option Z :=
  match f with
  | S754_zero _ => Some 0
  | S754_finite s m e =>
      let n := Z.pos m in
      let magnitude :=
        if 0 <=? e then Some (n * 2 ^ e)
        else if n mod 2 ^ (- e) =? 0 then Some (n / 2 ^ (- e))
        else None in
      (fun z => if s then - z else z) <$> magnitude
  | S754_infinity _ | S754_nan => None
  end.

(** [f == g] on floats: by value, the two zeros equal, NaN equal to
    nothing. *)
Definition float_eqb (f g : spec_float) : bool :=
  match f, g with
  | S754_zero _, S754_zero _ => true
  | S754_infinity s, S754_infinity t => bool_decide (s = t)
  | S754_finite s m e, S754_finite t n d =>
      bool_decide (s = t)
      && (Z.pos m * 2 ^ (e - Z.min e d) =? Z.pos n * 2 ^ (d - Z.min e d))
  | _, _ => false
  end.

(** [a == b]: an [int] and a [float] are equal when they have the same
    value; otherwise values of different types are never equal, and in
    particular a [bytes] object never equals a [str]. *)
Definition py_eq (a b : pyval) : bool :=
  match a, b with
  | PyInt i, PyFloat f => bool_decide (float_int_value f = Some i)
  | PyFloat f, PyInt i => bool_decide (float_int_value f = Some i)
  | PyFloat f, PyFloat g => float_eqb f g
  | _, _ => bool_decide (a = b)
  end.

(** The numbers: [int] and [float]. *)
Definition is_number (x : pyval) : Prop :=
  match x with
  | PyInt _ | PyFloat _ => True
  | _ => False
  end.

(** The integer a number is equal to. *)
Definition int_value (x : pyval) : option Z :=
  match x with
  | PyInt z => Some z
  | PyFloat f => float_int_value f
  | _ => None
  end.

(** [x in l] for a list [l]. *)
Definition py_in (x : pyval) (l : list pyval) : bool := existsb (py_eq x) l.

(** [len(x)] *)
Definition py_len (x : pyval) : result nat :=
  match x with
  | PyStr s => Ok (length s)
  | PyBytes b => Ok (length b)
  | _ => Raise TypeError
  end.

(** [x or None] *)
Definition py_or_None (x : pyval) : pyval :=
  match x with
  | PyInt 0 => PyNone
  | PyFloat (S754_zero _) => PyNone
  | PyStr [] => PyNone
  | PyBytes [] => PyNone
  | _ => x
  end.

(** [range(a, b)] as a list of [int] objects. *)
Definition py_range (a b : Z) : list pyval :=
  (fun i => PyInt (a + Z.of_nat i)) <$> seq 0 (Z.to_nat (b - a)).

(** ** [str.encode()]: UTF-8, errors='strict' *)

Definition byte_of_Z (z : Z) : byte :=
  default "000"%byte (Byte.of_N (Z.to_N (z mod 256))).

Definition utf8_char (c : N) : result bytes :=
  let z := Z.of_N c in
  if z <? 0x80 then Ok [byte_of_Z z]
  else if z <? 0x800 then
    Ok [byte_of_Z (0xC0 + z / 64); byte_of_Z (0x80 + z mod 64)]
  else if z <? 0x10000 then
    if (0xD800 <=? z) && (z <=? 0xDFFF) then Raise UnicodeEncodeError
    else Ok [byte_of_Z (0xE0 + z / 4096);
             byte_of_Z (0x80 + (z / 64) mod 64);
             byte_of_Z (0x80 + z mod 64)]
  else if z <? 0x110000 then
    Ok [byte_of_Z (0xF0 + z / 262144);
        byte_of_Z (0x80 + (z / 4096) mod 64);
        byte_of_Z (0x80 + (z / 64) mod 64);
        byte_of_Z (0x80 + z mod 64)]
  else Raise UnicodeEncodeError.

Fixpoint encode (s : str) : result bytes :=
  match s with
  | [] => Ok []
  | c :: s' => b ← utf8_char c; rest ← encode s'; Ok (b ++ rest)
  end.

(** ** Built-ins on values *)

(** [s.encode()] on a value: only [str] has the method. *)
Definition py_encode (x : pyval) : result bytes :=
  match x with
  | PyStr s => encode s
  | _ => Raise (AttributeError "encode")
  end.

(** [a + b] with a [str] on the left. *)
Definition py_str_add (a : str) (b : pyval) : result str :=
  match b with
  | PyStr s => Ok (a ++ s)
  | _ => Raise TypeError
  end.

Fixpoint parse_digits (acc : Z) (s : str) : result Z :=
  match s with
  | [] => Ok acc
  | c :: s' =>
      if (48 <=? c)%N && (c <=? 57)%N
      then parse_digits (acc * 10 + (Z.of_N c - 48)) s'
      else Raise (ValueError (lit "invalid literal for int()"))
  end.

(** [int(x)]: an [int] is returned as it is; a finite [float] is cut
    towards zero, an infinity raises [OverflowError] and a NaN
    [ValueError]; text is read as a plain run of ASCII decimal digits
    (signs, blanks and underscores are left out: the properties below
    pass no text to [int]); [None] and other objects are refused. *)
Definition py_int (x : pyval) : result Z :=
  match x with
  | PyInt z => Ok z
  | PyFloat (S754_zero _) => Ok 0
  | PyFloat (S754_finite s m e) =>
      let magnitude :=
        if 0 <=? e then Z.pos m * 2 ^ e else Z.pos m / 2 ^ (- e) in
      Ok (if s then - magnitude else magnitude)
  | PyFloat (S754_infinity _) => Raise OverflowError
  | PyFloat S754_nan => Raise (ValueError (lit "cannot convert float NaN to integer"))
  | PyStr (c :: s) => parse_digits 0 (c :: s)
  | PyBytes (c :: b) => parse_digits 0 (Byte.to_N <$> (c :: b))
  | PyStr [] | PyBytes [] => Raise (ValueError (lit "invalid literal for int()"))
  | PyNone | PyObj _ => Raise TypeError
  end.

(** Text within ASCII. *)
Definition ascii_text (s : str) : Prop := Forall (fun c => (c < 128)%N) s.

(** ** [struct.pack] with byte order [>] *)

(** A format string is the list of its codes, in order; [Fs n] is the
    code [ns], whose count [n] the source prints into the string with
    [str(len(x)) + "s"] or [format]. *)
Inductive fmt : Type :=
  | Fb          (* b: signed char *)
  | FH          (* H: unsigned short *)
  | Fq          (* q: signed long long *)
  | FQ          (* Q: unsigned long long *)
  | Fs (n : nat).

(** The [n] low-order octets of [z], most significant first
    (two's complement for negative [z]). *)
Fixpoint be_bytes (n : nat) (z : Z) : bytes :=
  match n with
  | O => []
  | S n' => byte_of_Z (z / 256 ^ Z.of_nat n') :: be_bytes n' z
  end.

Definition pack_int (n : nat) (lo hi z : Z) : result bytes :=
  if (lo <=? z) && (z <=? hi) then Ok (be_bytes n z) else Raise StructError.

(** One format code applied to one argument.  An integer code refuses a
    non-integer and an integer out of range; [ns] refuses anything but
    [bytes], truncates a longer argument and pads a shorter one with
    null bytes. *)
Definition pack_one (f : fmt) (v : pyval) : result bytes :=
  match f, v with
  | Fb, PyInt z => pack_int 1 (-128) 127 z
  | FH, PyInt z => pack_int 2 0 65535 z
  | Fq, PyInt z => pack_int 8 (- 2 ^ 63) (2 ^ 63 - 1) z
  | FQ, PyInt z => pack_int 8 0 (2 ^ 64 - 1) z
  | Fs n, PyBytes b => Ok (take n b ++ replicate (n - length b) "000"%byte)
  | _, _ => Raise StructError
  end.

(** [struct.pack(fmt, *args)]: as many arguments as codes. *)
Fixpoint struct_pack (fs : list fmt) (vs : list pyval) : result bytes :=
  match fs, vs with
  | [], [] => Ok []
  | f :: fs', v :: vs' =>
      b ← pack_one f v; rest ← struct_pack fs' vs'; Ok (b ++ rest)
  | _, _ => Raise StructError
  end.

(** The packed length of a format. *)
Definition calcsize (fs : list fmt) : nat :=
  foldr (fun f acc =>
           (match f with
            | Fb => 1 | FH => 2 | Fq => 8 | FQ => 8 | Fs n => n
            end + acc)%nat) O fs.

(** [len(x)] as an [int] argument. *)
Definition len {A} (l : list A) : pyval := PyInt (Z.of_nat (length l)).

(** ** [str] comparison and [sorted] *)

(** [a <= b] on [str]: lexicographic on code points, a proper prefix
    first. *)
Fixpoint str_leb (a b : str) : bool :=
  match a, b with
  | [], _ => true
  | _ :: _, [] => false
  | x :: a', y :: b' =>
      if (x <? y)%N then true
      else if (x =? y)%N then str_leb a' b'
      else false
  end.

Definition str_le : relation str := fun a b => str_leb a b = true.

#[global] Instance str_le_dec : RelDecision str_le.
Proof. intros a b. unfold str_le. apply _. Defined.

(** [sorted(keys)]: the keys in ascending order. *)
Definition sorted (l : list str) : list str := merge_sort str_le l.

(** ** [dict] with [str] keys and values *)

(** A dictionary lists its items in insertion order; its keys are
    distinct ([dict_wf]). *)
Abbreviation dict := (list (str * str)).

Definition dict_wf (d : dict) : Prop := NoDup d.*1.

(** [six.iterkeys(d)] *)
Definition iterkeys (d : dict) : list str := d.*1.

(** [d[key]] *)
Fixpoint getitem (d : dict) (key : str) : result str :=
  match d with
  | [] => Raise KeyError
  | (k, v) :: d' => if decide (k = key) then Ok v else getitem d' key
  end.

(** ** Objects as attribute dictionaries *)

(** [obj.name] for an instance with attribute dictionary [self] whose
    class (with its bases) defines the names [cls]. *)
Definition getattr (cls : list string) (self : gmap string pyval)
    (name : string) : result pyval :=
  match self !! name with
  | Some v => Ok v
  | None =>
      if decide (name ∈ cls) then Ok (PyObj "method")
      else Raise (AttributeError name)
  end.

(** [d[key]] for a dictionary of keyword arguments. *)
Definition kw_getitem (d : gmap string pyval) (key : string) : result pyval :=
  match d !! key with
  | Some v => Ok v
  | None => Raise KeyError
  end.

(** ** [datetime.date(year, month, day).weekday()] *)

Definition is_leap (year : Z) : bool :=
  (year mod 4 =? 0) && (negb (year mod 100 =? 0) || (year mod 400 =? 0)).

Definition days_before_year (year : Z) : Z :=
  let y := year - 1 in y * 365 + y / 4 - y / 100 + y / 400.

Definition DAYS_IN_MONTH : list Z :=
  [-1; 31; 28; 31; 30; 31; 30; 31; 31; 30; 31; 30; 31].

Definition DAYS_BEFORE_MONTH : list Z :=
  [-1; 0; 31; 59; 90; 120; 151; 181; 212; 243; 273; 304; 334].

Definition days_in_month (year month : Z) : Z :=
  if (month =? 2) && is_leap year then 29
  else nth (Z.to_nat month) DAYS_IN_MONTH 0.

Definition days_before_month (year month : Z) : Z :=
  nth (Z.to_nat month) DAYS_BEFORE_MONTH 0
  + (if (2 <? month) && is_leap year then 1 else 0).

Definition ymd2ord (year month day : Z) : Z :=
  days_before_year year + days_before_month year month + day.

(** Monday is 0.  The constructor refuses a date outside the calendar. *)
Definition date_weekday (year month day : Z) : result Z :=
  if (1 <=? year) && (year <=? 9999) && (1 <=? month) && (month <=? 12)
     && (1 <=? day) && (day <=? days_in_month year month)
  then Ok ((ymd2ord year month day + 6) mod 7)
  else Raise (ValueError (lit "date value out of range")).

(** ** [base58.b58decode] (Bitcoin alphabet) *)

Definition b58_alphabet : str :=
  lit "123456789ABCDEFGHJKLMNPQRSTUVWXYZabcdefghijkmnopqrstuvwxyz".

Fixpoint index_of (c : N) (l : str) : option nat :=
  match l with
  | [] => None
  | x :: l' => if (x =? c)%N then Some O else S <$> index_of c l'
  end.

Fixpoint b58decode_int (acc : Z) (v : str) : result Z :=
  match v with
  | [] => Ok acc
  | c :: v' =>
      match index_of c b58_alphabet with
      | Some i => b58decode_int (acc * 58 + Z.of_nat i) v'
      | None => Raise (ValueError (lit "Invalid character"))
      end
  end.

Fixpoint lstrip (c : N) (v : str) : str :=
  match v with
  | x :: v' => if (x =? c)%N then lstrip c v' else v
  | [] => []
  end.

(** The octets of [acc], least significant first; [fuel] bounds their
    number. *)
Fixpoint le_octets (fuel : nat) (acc : Z) : bytes :=
  match fuel with
  | O => []
  | S fuel' =>
      if 0 <? acc then byte_of_Z (acc mod 256) :: le_octets fuel' (acc / 256)
      else []
  end.

(** Leading [1]s decode to null bytes, the rest to the big-endian
    octets of the base-58 number.  (Releases of the library that first
    strip trailing blanks agree with this on text without blanks.) *)
Definition base58_b58decode (v : str) : result bytes :=
  let origlen := length v in
  let v' := lstrip 49%N v in
  let newlen := length v' in
  acc ← b58decode_int 0 v';
  Ok (replicate (origlen - newlen) "000"%byte ++ rev (le_octets newlen acc)).

(** ** [uplink.enum] *)

(** The tag constants the encoders read; their values are parameters. *)
Record enum_module : Type := {
  TxTypeCreateAccount : Z;
  TxTypeCreateAsset : Z;
  TxTypeTransfer : Z;
  TxTypeBind : Z;
  VTypeMsg : Z;
  VTypeDateTime : Z
}.

(** Modelled from the spec: [enum.AssetFractional] is a constant of the
    missing module [uplink.enum]; it is the name the spec gives the
    fractional asset kind. *)
Definition AssetFractional : str := lit "Fractional".

(** ** [Serializable] *)

(** The classes that override [to_binary]. *)
Class Serializable (A : Type) : Type := to_binary : A -> result bytes.

(** The base method. *)
Definition Serializable_to_binary {A : Type} (self : A) : result bytes :=
  Raise NotImplementedError.

(** ** [AssetType] *)

Module AssetType.

Record t : Type := { type : pyval; precision : pyval }.

Definition asset_types : list pyval :=
  [PyStr (lit "Fractional"); PyStr (lit "Discrete"); PyStr (lit "Binary")].

Definition __init__ (asset_type : gmap string pyval) : result t :=
  ty ← kw_getitem asset_type "type";
  if py_in ty asset_types then
    if py_eq ty (PyStr AssetFractional) then
      p ← kw_getitem asset_type "precision";
      if py_in p (py_range 1 7) then
        Ok {| type := ty; precision := py_or_None p |}
      else
        Raise (ValueError (lit "Invalid precision for Fractional asset type."))
    else
      p ← kw_getitem asset_type "precision";
      if negb (py_eq p PyNone) then
        Raise (ValueError
                 (lit "Cannot specify precision of Non-Fractional asset."))
      else Ok {| type := ty; precision := PyNone |}
  else
    msg ← py_str_add (lit "Invalid asset type: ") ty;
    Raise (ValueError msg).

Definition to_binary (self : t) : result bytes :=
  n ← py_len (type self);
  enc ← py_encode (type self);
  typ ← struct_pack [FH; Fs n] [PyInt (Z.of_nat n); PyBytes enc];
  mprec ← match precision self with
          | PyNone => Ok []
          | prec => struct_pack [Fq] [prec]
          end;
  Ok (typ ++ mprec).

End AssetType.

#[global] Instance AssetType_Serializable : Serializable AssetType.t :=
  AssetType.to_binary.

(** [dict(type=kind, precision=precision)] *)
Definition asset_type_dict (kind : str) (precision : pyval)
    : gmap string pyval :=
  <["precision" := precision]> {["type" := PyStr kind]}.

(** ** [AssetRef] *)

Module AssetRef.

(** Names defined by the class and its base [Serializable]. *)
Definition class_attrs : list string :=
  ["__init__"; "to_binary"; "to_dict"; "to_json"; "sign"]%string.

Definition asset_refs : list str :=
  [lit "USD"; lit "GBP"; lit "EUR"; lit "CHF"; lit "Token"; lit "Security"].

(** The instance is its attribute dictionary. *)
Definition __init__ (asset_ref : str) : result (gmap string pyval) :=
  if decide (asset_ref ∈ asset_refs) then Ok {["ref" := PyStr asset_ref]}
  else Raise (ValueError (asset_ref ++ lit "is not a valid asset reference")).

Definition to_binary (self : gmap string pyval) : result bytes :=
  ty ← getattr class_attrs self "type";
  n ← py_len ty;
  ref ← getattr class_attrs self "ref";
  m ← py_len ref;
  byts ← struct_pack [FH; Fs n] [PyInt (Z.of_nat m)];
  ref' ← getattr class_attrs self "ref";
  m' ← py_len ref';
  struct_pack [FH; Fs n] [PyInt (Z.of_nat m'); PyBytes byts].

End AssetRef.

(** ** Values *)

Module VMsg.

Record t : Type := { contents : str }.

Definition to_binary (enum : enum_module) (self : t) : result bytes :=
  enc ← encode (contents self);
  struct_pack [Fb; FH; Fs (length (contents self))]
    [PyInt (VTypeMsg enum); len (contents self); PyBytes enc].

End VMsg.

Module VDateTime.

(** The attributes read from [contents].  For a [datetime.datetime],
    [tzinfo] is [None] or an instance of a [tzinfo] subclass. *)
Record datetime : Type := {
  year : Z; month : Z; day : Z;
  hour : Z; minute : Z; second : Z;
  tzinfo : pyval
}.

Record t : Type := { contents : datetime }.

Definition to_binary (enum : enum_module) (self : t) : result bytes :=
  let year := year (contents self) in
  let month := month (contents self) in
  let day := day (contents self) in
  let hour := hour (contents self) in
  let minute := minute (contents self) in
  let second := second (contents self) in
  let tz := tzinfo (contents self) in
  dayofweek ← date_weekday year month day;
  struct_pack [Fb; FQ; FQ; FQ; FQ; FQ; FQ; FQ; FQ]
    [PyInt (VTypeDateTime enum); PyInt year; PyInt month; PyInt day;
     PyInt hour; PyInt minute; PyInt second; tz; PyInt dayofweek].

End VDateTime.

(** ** Transaction headers *)

Module CreateAccountHeader.

Record t : Type := { pubKey : bytes; timezone : str; metadata : dict }.

(** One turn of the loop over the sorted keys. *)
Definition pack_item (metadata : dict) (key : str) : result bytes :=
  value ← getitem metadata key;
  key_enc ← encode key;
  value_enc ← encode value;
  struct_pack [FH; Fs (length key); FH; Fs (length value)]
    [len key; PyBytes key_enc; len value; PyBytes value_enc].

Fixpoint pack_items (metadata : dict) (keys : list str)
    (meta_structure : bytes) : result bytes :=
  match keys with
  | [] => Ok meta_structure
  | key :: keys' =>
      metapack ← pack_item metadata key;
      pack_items metadata keys' (meta_structure ++ metapack)
  end.

Definition to_binary (enum : enum_module) (self : t) : result bytes :=
  let key_str := pubKey self in
  if (0 <? length (metadata self))%nat then
    tz ← encode (timezone self);
    structured ← struct_pack
      [FH; FH; Fs (length key_str); FH; Fs (length (timezone self))]
      [PyInt (TxTypeCreateAccount enum); len key_str; PyBytes key_str;
       len (timezone self); PyBytes tz];
    len_pack ← struct_pack [FH] [len (metadata self)];
    let structured := structured ++ len_pack in
    meta_structure ←
      pack_items (metadata self) (sorted (iterkeys (metadata self))) [];
    Ok (structured ++ meta_structure)
  else
    tz ← encode (timezone self);
    struct_pack
      [FH; FH; Fs (length key_str); FH; Fs (length (timezone self)); FH]
      [PyInt (TxTypeCreateAccount enum); len key_str; PyBytes (pubKey self);
       len (timezone self); PyBytes tz; PyInt 0].

End CreateAccountHeader.

Module AssetTypeParams.

Record t : Type := { tag : bytes; contents : pyval }.

Definition __init__ (type_ : str) (precision : pyval) : result t :=
  tag ← encode type_;
  Ok {| tag := tag; contents := precision |}.

End AssetTypeParams.

Module CreateAssetHeader.

Record t : Type := {
  assetAddr : str;
  assetName : str;
  supply : Z;
  issuer : str;
  reference : str;
  assetType : AssetTypeParams.t
}.

(** [derive_asset_address] is [uplink.cryptography.derive_asset_address],
    which returns the base58 text of the derived address.  The supply is
    any value, converted by [int(supply)].  The name, the kind, the
    reference and the issuer are text; [str(reference)] returns a [str]
    as it is. *)
Definition __init__
    (derive_asset_address : str -> str -> pyval -> str -> AssetType.t -> str)
    (name : str) (supply : pyval) (asset_type : str)
    (reference : str) (issuer : str) (precision : pyval) : result t :=
  asset_type_ ← AssetType.__init__ (asset_type_dict asset_type precision);
  let assetAddr :=
    derive_asset_address name issuer supply reference asset_type_ in
  supply_ ← py_int supply;
  assetType ← AssetTypeParams.__init__ asset_type precision;
  Ok {| assetAddr := assetAddr; assetName := name; supply := supply_;
        issuer := issuer; reference := reference;
        assetType := assetType |}.

Definition to_binary (enum : enum_module) (b58decode : str -> result bytes)
    (self : t) : result bytes :=
  let precision := AssetTypeParams.contents (assetType self) in
  let _asset_type := AssetTypeParams.tag (assetType self) in
  let name_len := Fs (length (assetName self)) in
  let asset_len := Fs (length _asset_type) in
  let reference_len := Fs (length (reference self)) in
  if py_eq (PyBytes _asset_type) (PyStr (lit "Fractional")) then
    addr ← b58decode (assetAddr self);
    name ← encode (assetName self);
    ref ← encode (reference self);
    prec ← py_int precision;
    struct_pack
      [FH; Fs 32; FH; name_len; FQ; FH; FH; reference_len; FH; asset_len; FQ]
      [PyInt (TxTypeCreateAsset enum); PyBytes addr; len (assetName self);
       PyBytes name; PyInt (supply self); PyInt 1; len (reference self);
       PyBytes ref; len _asset_type; PyBytes _asset_type; PyInt prec]
  else
    addr ← b58decode (assetAddr self);
    name ← encode (assetName self);
    ref ← encode (reference self);
    struct_pack
      [FH; Fs 32; FH; name_len; FQ; FH; FH; reference_len; FH; asset_len]
      [PyInt (TxTypeCreateAsset enum); PyBytes addr; len (assetName self);
       PyBytes name; PyInt (supply self); PyInt 1; len (reference self);
       PyBytes ref; len _asset_type; PyBytes _asset_type].

End CreateAssetHeader.

Module TransferAssetHeader.

Record t : Type := { assetAddr : str; toAddr : str; balance : Z }.

Definition to_binary (enum : enum_module) (b58decode : str -> result bytes)
    (self : t) : result bytes :=
  asset ← b58decode (assetAddr self);
  to ← b58decode (toAddr self);
  struct_pack [FH; Fs 32; Fs 32; Fq]
    [PyInt (TxTypeTransfer enum); PyBytes asset; PyBytes to;
     PyInt (balance self)].

End TransferAssetHeader.

Module BindHeader.

Record t : Type := { asset : str; contract : str; proof : bytes }.

Definition __init__ (asset_addr contract_addr : str) (proof : bytes) : t :=
  {| asset := asset_addr; contract := contract_addr; proof := proof |}.

Definition to_binary (enum : enum_module) (self : t) : result bytes :=
  contract ← encode (contract self);
  asset ← encode (asset self);
  struct_pack [FH; Fs 32; Fs 32; Fs (length (proof self))]
    [PyInt (TxTypeBind enum); PyBytes contract; PyBytes asset;
     PyBytes (proof self)].

End BindHeader.

(** ** Signing *)

(** Modelled from the spec: [uplink.cryptography.ecdsa_sign] is missing.
    The spec describes it as a signature function of the private key and
    the message that is reproducible when a fixed nonce is supplied and
    randomized when the nonce is omitted; [entropy] stands for the random
    source it draws from in the second case. *)
Class Signer (privkey nonce signature entropy : Type) : Type := {
  ecdsa_sign :
    privkey -> bytes -> option nonce -> entropy -> result signature;
  ecdsa_sign_fixed_nonce : forall key stream k e1 e2,
    ecdsa_sign key stream (Some k) e1 = ecdsa_sign key stream (Some k) e2
}.

(** [Serializable.sign] *)
Definition sign {privkey nonce signature entropy : Type}
    `{Signer privkey nonce signature entropy}
    {A : Type} `{Serializable A}
    (self : A) (privkey0 : privkey) (k : option nonce) (e : entropy)
    : result signature :=
  stream ← to_binary self;
  ecdsa_sign privkey0 stream k e.

(** ** The outcomes of [AssetType] construction *)

(** A precision the Fractional kind accepts. *)
Definition precision_in_range (prec : pyval) : Prop :=
  exists p, int_value prec = Some p /\ 1 <= p <= 6.

(** The three construction errors. *)
Definition invalid_precision : exn :=
  ValueError (lit "Invalid precision for Fractional asset type.").
Definition precision_not_allowed : exn :=
  ValueError (lit "Cannot specify precision of Non-Fractional asset.").
Definition invalid_asset_type (kind : str) : exn :=
  ValueError (lit "Invalid asset type: " ++ kind).

(** ** The encodings as the specification words them

    Second definitions, written from the specification's layout tables,
    for comparison with the encoders above. *)

(** Msg: tag byte, two-byte length of the UTF-8 encoding, the UTF-8
    bytes. *)
Definition VMsg_to_binary_claimed (enum : enum_module) (self : VMsg.t)
    : result bytes :=
  enc ← encode (VMsg.contents self);
  struct_pack [Fb; FH; Fs (length enc)]
    [PyInt (VTypeMsg enum); len enc; PyBytes enc].

(** Bind: kind tag, the decoded contract address, the decoded asset
    address, the proof bytes. *)
Definition BindHeader_to_binary_claimed (enum : enum_module)
    (b58decode : str -> result bytes) (self : BindHeader.t) : result bytes :=
  contract ← b58decode (BindHeader.contract self);
  asset ← b58decode (BindHeader.asset self);
  struct_pack [FH; Fs 32; Fs 32; Fs (length (BindHeader.proof self))]
    [PyInt (TxTypeBind enum); PyBytes contract; PyBytes asset;
     PyBytes (BindHeader.proof self)].

(** CreateAsset: the common record, then an eight-byte precision when
    the asset type is Fractional. *)
Definition CreateAssetHeader_to_binary_claimed (enum : enum_module)
    (b58decode : str -> result bytes) (self : CreateAssetHeader.t)
    : result bytes :=
  let kind := AssetTypeParams.tag (CreateAssetHeader.assetType self) in
  addr ← b58decode (CreateAssetHeader.assetAddr self);
  name ← encode (CreateAssetHeader.assetName self);
  ref ← encode (CreateAssetHeader.reference self);
  record ← struct_pack
    [FH; Fs 32; FH; Fs (length name); FQ; FH; FH; Fs (length ref); FH;
     Fs (length kind)]
    [PyInt (TxTypeCreateAsset enum); PyBytes addr; len name; PyBytes name;
     PyInt (CreateAssetHeader.supply self); PyInt 1; len ref; PyBytes ref;
     len kind; PyBytes kind];
  if decide (kind = list_byte_of_string "Fractional") then
    precision ← struct_pack [FQ]
      [AssetTypeParams.contents (CreateAssetHeader.assetType self)];
    Ok (record ++ precision)
  else Ok record.

(** ** Sample inputs *)

(** Tag values to run the encoders on; the theorems hold for every
    [enum_module] whose tags fit their fields. *)
Definition sample_enum : enum_module := {|
  TxTypeCreateAccount := 1007;
  TxTypeCreateAsset := 1003;
  TxTypeTransfer := 1004;
  TxTypeBind := 1006;
  VTypeMsg := 7;
  VTypeDateTime := 10
|}.

(** The base58 text of 32 null bytes and of 32 bytes [0xFF]. *)
Definition addr_zero : str := lit "11111111111111111111111111111111".
Definition addr_ff : str := lit "JEKNVnkbo3jma5nREBBJCDoXFVeKkD56V3xKrvRmWxFG".

(** The [datetime.datetime] objects: a calendar date, a time of day,
    and a [tzinfo] that is [None] (a naive datetime) or an instance of a
    [tzinfo] subclass (an aware one). *)
Definition datetime_object (dt : VDateTime.datetime) : Prop :=
  returns (date_weekday (VDateTime.year dt) (VDateTime.month dt)
             (VDateTime.day dt))
  /\ 0 <= VDateTime.hour dt < 24
  /\ 0 <= VDateTime.minute dt < 60
  /\ 0 <= VDateTime.second dt < 60
  /\ (VDateTime.tzinfo dt = PyNone
      \/ exists cls, VDateTime.tzinfo dt = PyObj cls).

(** [datetime.datetime(2024, 1, 1)], and the same instant with
    [tzinfo=datetime.timezone.utc]. *)
Definition naive_datetime : VDateTime.datetime := {|
  VDateTime.year := 2024; VDateTime.month := 1; VDateTime.day := 1;
  VDateTime.hour := 0; VDateTime.minute := 0; VDateTime.second := 0;
  VDateTime.tzinfo := PyNone
|}.

Definition aware_datetime : VDateTime.datetime := {|
  VDateTime.year := 2024; VDateTime.month := 1; VDateTime.day := 1;
  VDateTime.hour := 0; VDateTime.minute := 0; VDateTime.second := 0;
  VDateTime.tzinfo := PyObj "timezone"
|}.

(** The float [2.0] (binary64: mantissa 2^52, exponent -51). *)
Definition float_two : spec_float :=
  S754_finite false 4503599627370496 (-51).

(** The float [2.5] (mantissa 5 * 2^50, exponent -51). *)
Definition float_2_5 : spec_float :=
  S754_finite false 5629499534213120 (-51).

(** A stand-in for address derivation. *)
Definition sample_derive (name issuer : str) (supply : pyval)
    (reference : str)
    (asset_type : AssetType.t) : str := addr_zero.

(** A stand-in signer: the signature records the nonce (or, without
    one, the entropy drawn) and the message. *)
#[local] Instance sample_signer : Signer Z Z (Z * bytes) Z.
Proof.
  refine {| ecdsa_sign := fun key stream k e =>
              Ok (key + default e k, stream) |}.
  reflexivity.
Defined.

(** ** The remaining constants of [uplink.enum] *)

(** The tags of the values and headers below; parameters as in
    [enum_module]. *)
Record enum_rest : Type := {
  TxTypeCreateContract : Z;
  TxTypeCirculate : Z;
  TxTypeRevokeAccount : Z;
  TxTypeRevokeAsset : Z;
  TxTypeCall : Z;
  TxTypeSyncLocal : Z;
  VTypeInt : Z;
  VTypeAddress : Z;
  VTypeAccount : Z;
  VTypeAsset : Z;
  VTypeContract : Z;
  VTypeVoid : Z;
  VTypeTimeDelta : Z;
  VTypeUndefined : Z
}.

(** ** Reading packed integers back *)

(** [int.from_bytes(l, 'big')] and its signed 64-bit reading, the
    inverses of the codes [Q], [H] and [q]. *)
Definition be_decode (l : bytes) : Z :=
  fold_left (fun acc b => acc * 256 + Z.of_N (Byte.to_N b)) l 0.

Definition int64_of_bytes (l : bytes) : Z :=
  let u := be_decode l in if u <? 2 ^ 63 then u else u - 2 ^ 64.

(** [f * n] for a float [f] and a positive [int] [n]: the exact
    product (the source packs it at once, where only its being a float
    matters, so the rounding to 53 bits is left out). *)
Definition float_scale (f : spec_float) (n : positive) : spec_float :=
  match f with
  | S754_finite s m e => S754_finite s (m * n) e
  | _ => f
  end.

(** [x * n] for a positive [int] [n]: integers multiply, floats scale,
    text and bytes repeat, anything else is refused. *)
Definition py_mul (x : pyval) (n : Z) : result pyval :=
  match x with
  | PyInt z => Ok (PyInt (z * n))
  | PyFloat f => Ok (PyFloat (float_scale f (Z.to_pos n)))
  | PyStr s => Ok (PyStr (mjoin (replicate (Z.to_nat n) s)))
  | PyBytes b => Ok (PyBytes (mjoin (replicate (Z.to_nat n) b)))
  | PyNone | PyObj _ => Raise TypeError
  end.

(** What the code [32s] writes for [b]: 32 bytes, whatever the length
    of [b]. *)
Definition pad32 (b : bytes) : bytes :=
  take 32 b ++ replicate (32 - length b) x00.

(** ** The remaining values *)

Module VInt.

Record t : Type := { contents : Z }.

Definition to_binary (enum : enum_rest) (self : t) : result bytes :=
  struct_pack [Fb; Fq] [PyInt (VTypeInt enum); PyInt (contents self)].

End VInt.

Module VAddress.

Record t : Type := { contents : str }.

Definition to_binary (enum : enum_rest) (b58decode : str -> result bytes)
    (self : t) : result bytes :=
  addr ← b58decode (contents self);
  struct_pack [Fb; Fs 32] [PyInt (VTypeAddress enum); PyBytes addr].

End VAddress.

Module VAccount.

Record t : Type := { contents : str }.

Definition to_binary (enum : enum_rest) (b58decode : str -> result bytes)
    (self : t) : result bytes :=
  addr ← b58decode (contents self);
  struct_pack [Fb; Fs 32] [PyInt (VTypeAccount enum); PyBytes addr].

End VAccount.

Module VAsset.

Record t : Type := { contents : str }.

Definition to_binary (enum : enum_rest) (b58decode : str -> result bytes)
    (self : t) : result bytes :=
  addr ← b58decode (contents self);
  struct_pack [Fb; Fs 32] [PyInt (VTypeAsset enum); PyBytes addr].

End VAsset.

Module VContract.

Record t : Type := { contents : str }.

Definition to_binary (enum : enum_rest) (b58decode : str -> result bytes)
    (self : t) : result bytes :=
  addr ← b58decode (contents self);
  struct_pack [Fb; Fs 32] [PyInt (VTypeContract enum); PyBytes addr].

End VContract.

Module VVoid.

Definition to_binary (enum : enum_rest) : result bytes :=
  struct_pack [Fb] [PyInt (VTypeVoid enum)].

End VVoid.

Module VUndefined.

Definition to_binary (enum : enum_rest) : result bytes :=
  struct_pack [Fb] [PyInt (VTypeUndefined enum)].

End VUndefined.

Module VTimeDelta.

(** [contents] is the dictionary of every attribute the object has. *)
Record t : Type := { contents : gmap string pyval }.

Definition to_binary (enum : enum_rest) (self : t) : result bytes :=
  year ← getattr [] (contents self) "year";
  month ← getattr [] (contents self) "month";
  day ← getattr [] (contents self) "day";
  hour ← getattr [] (contents self) "hour";
  minute ← getattr [] (contents self) "minute";
  second ← getattr [] (contents self) "second";
  microsecond ← getattr [] (contents self) "microsecond";
  nanosec ← py_mul microsecond 1000;
  struct_pack [Fb; FQ; FQ; FQ; FQ; FQ; FQ; FQ]
    [PyInt (VTypeTimeDelta enum); year; month; day; hour; minute; second;
     nanosec].

End VTimeDelta.

(** The attributes of a [datetime.timedelta]: the three fields, the
    method and the class constants. *)
Definition timedelta (days seconds microseconds : Z) : gmap string pyval :=
  list_to_map
    [("days", PyInt days); ("seconds", PyInt seconds);
     ("microseconds", PyInt microseconds);
     ("total_seconds", PyObj "method"); ("min", PyObj "timedelta");
     ("max", PyObj "timedelta"); ("resolution", PyObj "timedelta")]%string.

(** The calendar attributes of a [datetime.datetime], as [VTimeDelta]
    reads them. *)
Definition datetime_fields (year month day hour minute second microsecond : Z)
    : gmap string pyval :=
  list_to_map
    [("year", PyInt year); ("month", PyInt month); ("day", PyInt day);
     ("hour", PyInt hour); ("minute", PyInt minute);
     ("second", PyInt second); ("microsecond", PyInt microsecond);
     ("tzinfo", PyNone)]%string.

(** ** The remaining headers *)

Module CreateContractHeader.

Record t : Type := {
  script : str; owner : str; address : str; timestamp : pyval
}.

Definition to_binary (enum : enum_rest) (b58decode : str -> result bytes)
    (self : t) : result bytes :=
  address ← b58decode (address self);
  script_enc ← encode (script self);
  struct_pack [FH; Fs 32; FH; Fs (length (script self))]
    [PyInt (TxTypeCreateContract enum); PyBytes address; len (script self);
     PyBytes script_enc].

End CreateContractHeader.

Module CirculateAssetHeader.

Record t : Type := { assetAddr : str; amount : Z }.

Definition to_binary (enum : enum_rest) (b58decode : str -> result bytes)
    (self : t) : result bytes :=
  asset ← b58decode (assetAddr self);
  struct_pack [FH; Fs 32; Fq]
    [PyInt (TxTypeCirculate enum); PyBytes asset; PyInt (amount self)].

End CirculateAssetHeader.

Module RevokeAccountHeader.

Record t : Type := { address : str }.

Definition to_binary (enum : enum_rest) (b58decode : str -> result bytes)
    (self : t) : result bytes :=
  addr ← b58decode (address self);
  struct_pack [FH; Fs 32] [PyInt (TxTypeRevokeAccount enum); PyBytes addr].

End RevokeAccountHeader.

Module RevokeAssetHeader.

Record t : Type := { address : str }.

Definition to_binary (enum : enum_rest) (b58decode : str -> result bytes)
    (self : t) : result bytes :=
  addr ← b58decode (address self);
  struct_pack [FH; Fs 32] [PyInt (TxTypeRevokeAsset enum); PyBytes addr].

End RevokeAssetHeader.

Module CallHeader.

(** [args] holds objects of any class with a [to_binary]. *)
Record t (A : Type) : Type := {
  address : str; method : str; args : list A
}.
Arguments address {A} _.
Arguments method {A} _.
Arguments args {A} _.

(** [[arg.to_binary() for arg in args]]: in order, up to the first
    exception. *)
Fixpoint to_binary_each {A : Type} `{Serializable A} (args : list A)
    : result (list bytes) :=
  match args with
  | [] => Ok []
  | arg :: args' =>
      b ← to_binary arg; bs ← to_binary_each args'; Ok (b :: bs)
  end.

Definition to_binary {A : Type} `{Serializable A}
    (enum : enum_rest) (b58decode : str -> result bytes) (self : t A)
    : result bytes :=
  each ← to_binary_each (args self);
  let binary_args := mjoin each in
  addr ← b58decode (address self);
  method_enc ← encode (method self);
  struct_pack
    [FH; Fs 32; FQ; Fs (length (method self)); FQ; Fs (length binary_args)]
    [PyInt (TxTypeCall enum); PyBytes addr; len (method self);
     PyBytes method_enc; len (args self); PyBytes binary_args].

End CallHeader.

Module SyncHeader.

(** [contract] is packed as it is given. *)
Record t : Type := { contract : pyval }.

Definition to_binary (enum : enum_rest) (self : t) : result bytes :=
  struct_pack [FH; Fs 32] [PyInt (TxTypeSyncLocal enum); contract self].

End SyncHeader.

(** ** Arguments of a call *)

(** The value classes above as one type, with [to_binary] dispatched on
    the class.  ([VFloat] and [VBool] pack with the codes [d] and [?],
    which are not among [fmt].) *)
Inductive value : Type :=
  | Int (v : VInt.t)
  | Address (v : VAddress.t)
  | Account (v : VAccount.t)
  | Asset (v : VAsset.t)
  | Contract (v : VContract.t)
  | Msg (v : VMsg.t)
  | Void
  | DateTime (v : VDateTime.t)
  | TimeDelta (v : VTimeDelta.t)
  | Undefined.

Definition value_to_binary (enum : enum_module) (enum' : enum_rest)
    (b58decode : str -> result bytes) (v : value) : result bytes :=
  match v with
  | Int v => VInt.to_binary enum' v
  | Address v => VAddress.to_binary enum' b58decode v
  | Account v => VAccount.to_binary enum' b58decode v
  | Asset v => VAsset.to_binary enum' b58decode v
  | Contract v => VContract.to_binary enum' b58decode v
  | Msg v => VMsg.to_binary enum v
  | Void => VVoid.to_binary enum'
  | DateTime v => VDateTime.to_binary enum v
  | TimeDelta v => VTimeDelta.to_binary enum' v
  | Undefined => VUndefined.to_binary enum'
  end.

(** The number of bytes each class of value is written on. *)
Definition value_size (v : value) : nat :=
  match v with
  | Int _ => 9
  | Address _ | Account _ | Asset _ | Contract _ => 33
  | Msg m => 3 + length (VMsg.contents m)
  | Void | Undefined => 1
  | DateTime _ => 65
  | TimeDelta _ => 57
  end.

(** Tag values to run the remaining encoders on. *)
Definition sample_enum_rest : enum_rest := {|
  TxTypeCreateContract := 1000;
  TxTypeCirculate := 1005;
  TxTypeRevokeAccount := 1008;
  TxTypeRevokeAsset := 1009;
  TxTypeCall := 1002;
  TxTypeSyncLocal := 1001;
  VTypeInt := 0;
  VTypeAddress := 3;
  VTypeAccount := 4;
  VTypeAsset := 5;
  VTypeContract := 6;
  VTypeVoid := 8;
  VTypeTimeDelta := 11;
  VTypeUndefined := 12
|}.

#[local] Instance sample_value_Serializable : Serializable value :=
  value_to_binary sample_enum sample_enum_rest base58_b58decode.

(** ** Properties *)

(** Membership in a list written out. *)
Ltac elem_of_list :=
  repeat (apply elem_of_cons; first [left; reflexivity | right]).

Lemma bind_Ok {A B} (a : A) (f : A -> result B) : (Ok a ≫= f) = f a.
Proof. reflexivity. Qed.

Lemma bind_Raise {A B} (e : exn) (f : A -> result B) :
  (Raise e ≫= f) = Raise e.
Proof. reflexivity. Qed.

Lemma length_be_bytes (n : nat) (z : Z) : length (be_bytes n z) = n.
Proof. induction n as [|n IH]; cbn [be_bytes length]; congruence. Qed.

Lemma pack_int_ok (n : nat) (lo hi z : Z) :
  lo <= z <= hi -> pack_int n lo hi z = Ok (be_bytes n z).
Proof.
  intros [Hlo Hhi]. unfold pack_int.
  apply Z.leb_le in Hlo, Hhi. now rewrite Hlo, Hhi.
Qed.

Lemma pack_int_raise (n : nat) (lo hi z : Z) :
  ~ lo <= z <= hi -> pack_int n lo hi z = Raise StructError.
Proof.
  intros Hn. unfold pack_int.
  destruct (lo <=? z) eqn:E1, (z <=? hi) eqn:E2; try reflexivity.
  apply Z.leb_le in E1, E2. tauto.
Qed.

Lemma struct_pack_cons (f : fmt) (fs : list fmt) (v : pyval) (vs : list pyval) :
  struct_pack (f :: fs) (v :: vs) =
  (b ← pack_one f v; rest ← struct_pack fs vs; Ok (b ++ rest)).
Proof. reflexivity. Qed.

Lemma length_pack_int (n : nat) (lo hi z : Z) (out : bytes) :
  pack_int n lo hi z = Ok out -> length out = n.
Proof.
  unfold pack_int. destruct ((lo <=? z) && (z <=? hi)); [|discriminate].
  intros [= <-]. apply length_be_bytes.
Qed.

Lemma length_pack_one (f : fmt) (v : pyval) (out : bytes) :
  pack_one f v = Ok out -> length out = calcsize [f].
Proof.
  destruct f, v; cbn [pack_one calcsize foldr]; try discriminate;
    try (intros Hp; apply length_pack_int in Hp; lia).
  intros [= <-]. rewrite length_app, length_take, length_replicate. lia.
Qed.

Lemma length_struct_pack (fs : list fmt) (vs : list pyval) (out : bytes) :
  struct_pack fs vs = Ok out -> length out = calcsize fs.
Proof.
  revert vs out. induction fs as [|f fs IH]; intros [|v vs] out;
    cbn [struct_pack]; try discriminate.
  - now intros [= <-].
  - destruct (pack_one f v) as [b|] eqn:Eb; [|discriminate].
    destruct (struct_pack fs vs) as [rest|] eqn:Er; [|discriminate].
    cbn [mbind result_bind]. intros [= <-]. rewrite length_app.
    apply length_pack_one in Eb. apply IH in Er.
    cbn [calcsize foldr] in Eb |- *. fold (calcsize fs). lia.
Qed.

(** [struct.pack] raises nothing but [struct.error], and raises it as
    soon as one argument is refused by its code. *)
Lemma pack_one_raise (f : fmt) (v : pyval) (e : exn) :
  pack_one f v = Raise e -> e = StructError.
Proof.
  destruct f, v; cbn [pack_one]; unfold pack_int;
    repeat case_match; congruence.
Qed.

Lemma struct_pack_refuses (fs : list fmt) (vs : list pyval)
    (i : nat) (f : fmt) (v : pyval) :
  fs !! i = Some f -> vs !! i = Some v ->
  pack_one f v = Raise StructError ->
  struct_pack fs vs = Raise StructError.
Proof.
  revert vs i. induction fs as [|f0 fs IH]; intros [|v0 vs] i;
    try discriminate; try reflexivity.
  destruct i as [|i]; cbn [lookup list_lookup].
  - intros [= ->] [= ->] Hpack. now rewrite struct_pack_cons, Hpack.
  - intros Hf Hv Hpack. rewrite struct_pack_cons.
    destruct (pack_one f0 v0) as [b|e] eqn:Hb.
    + now rewrite bind_Ok, (IH vs i Hf Hv Hpack).
    + apply pack_one_raise in Hb. now subst.
Qed.

(** *** Transfer *)

(** C8. A Transfer header whose asset address decodes to 32 null bytes,
    whose destination decodes to 32 bytes [0xFF] and whose balance is
    [-5] encodes to 74 bytes: the two-byte kind tag, the 32 asset
    address bytes, the 32 destination bytes and the balance as the
    eight-byte big-endian two's complement of [-5]. *)
Theorem TransferAssetHeader_to_binary_scenario
    (enum : enum_module) (b58decode : str -> result bytes)
    (assetAddr toAddr : str) :
  0 <= TxTypeTransfer enum <= 65535 ->
  b58decode assetAddr = Ok (replicate 32 x00) ->
  b58decode toAddr = Ok (replicate 32 xff) ->
  let out := be_bytes 2 (TxTypeTransfer enum)
             ++ replicate 32 x00 ++ replicate 32 xff
             ++ [xff; xff; xff; xff; xff; xff; xff; xfb] in
  TransferAssetHeader.to_binary enum b58decode
    {| TransferAssetHeader.assetAddr := assetAddr;
       TransferAssetHeader.toAddr := toAddr;
       TransferAssetHeader.balance := -5 |} = Ok out
  /\ length out = 74%nat.
Proof.
  intros Htag Hasset Hto out. split.
  - unfold TransferAssetHeader.to_binary.
    cbn [TransferAssetHeader.assetAddr TransferAssetHeader.toAddr
         TransferAssetHeader.balance].
    rewrite Hasset, Hto, !bind_Ok.
    rewrite !struct_pack_cons. cbn [pack_one].
    rewrite (pack_int_ok 2) by exact Htag.
    rewrite (pack_int_ok 8) by lia.
    reflexivity.
  - unfold out. rewrite length_app, length_be_bytes. reflexivity.
Qed.

Lemma TransferAssetHeader_to_binary_scenario_witness :
  TransferAssetHeader.to_binary sample_enum base58_b58decode
    {| TransferAssetHeader.assetAddr := addr_zero;
       TransferAssetHeader.toAddr := addr_ff;
       TransferAssetHeader.balance := -5 |}
  = Ok ([x03; xec] ++ replicate 32 x00 ++ replicate 32 xff
        ++ [xff; xff; xff; xff; xff; xff; xff; xfb]).
Proof.
  apply (TransferAssetHeader_to_binary_scenario sample_enum base58_b58decode
           addr_zero addr_ff).
  - cbn. lia.
  - vm_compute. reflexivity.
  - vm_compute. reflexivity.
Defined.

(** *** Msg *)

Lemma encode_cons (c : N) (s : str) :
  encode (c :: s) = (b ← utf8_char c; rest ← encode s; Ok (b ++ rest)).
Proof. reflexivity. Qed.

Lemma utf8_char_ascii (c : N) :
  (c < 128)%N -> utf8_char c = Ok [byte_of_Z (Z.of_N c)].
Proof.
  intros Hc. unfold utf8_char. cbv zeta.
  destruct (Z.ltb_spec (Z.of_N c) 128) as [_|Hge]; [reflexivity | lia].
Qed.

(** ASCII text encodes to one byte per code point. *)
Lemma encode_ascii (s : str) :
  Forall (fun c => (c < 128)%N) s ->
  encode s = Ok ((fun c => byte_of_Z (Z.of_N c)) <$> s).
Proof.
  induction 1 as [|c s Hc _ IH]; [reflexivity|].
  rewrite encode_cons, (utf8_char_ascii c Hc), IH. reflexivity.
Qed.

(** On ASCII text the encoder and the specified layout agree. *)
Lemma VMsg_to_binary_ascii (enum : enum_module) (self : VMsg.t) :
  Forall (fun c => (c < 128)%N) (VMsg.contents self) ->
  VMsg.to_binary enum self = VMsg_to_binary_claimed enum self.
Proof.
  intros Hascii. unfold VMsg.to_binary, VMsg_to_binary_claimed.
  rewrite (encode_ascii _ Hascii), !bind_Ok.
  unfold len. now rewrite length_fmap.
Qed.

Lemma utf8_char_length (c : N) (b : bytes) :
  utf8_char c = Ok b -> (1 <= length b)%nat.
Proof.
  unfold utf8_char. cbv zeta.
  repeat case_match; try discriminate; intros [= <-]; cbn [length]; lia.
Qed.

Lemma encode_length (s : str) (enc : bytes) :
  encode s = Ok enc -> (length s <= length enc)%nat.
Proof.
  revert enc. induction s as [|c s IH]; intros enc; [cbn; lia|].
  rewrite encode_cons.
  destruct (utf8_char c) as [b|] eqn:Hb; [|discriminate].
  destruct (encode s) as [rest|]; [|discriminate].
  rewrite !bind_Ok. intros [= <-].
  apply utf8_char_length in Hb. specialize (IH rest eq_refl).
  rewrite length_app. cbn [length]. lia.
Qed.

(** X1. What the encoder writes: the number of code points as the prefix,
    and as many bytes of the UTF-8 encoding. *)
Lemma VMsg_to_binary_code_points
    (enum : enum_module) (self : VMsg.t) (enc : bytes) :
  -128 <= VTypeMsg enum <= 127 ->
  encode (VMsg.contents self) = Ok enc ->
  Z.of_nat (length (VMsg.contents self)) <= 65535 ->
  VMsg.to_binary enum self
  = Ok (be_bytes 1 (VTypeMsg enum)
        ++ be_bytes 2 (Z.of_nat (length (VMsg.contents self)))
        ++ take (length (VMsg.contents self)) enc).
Proof.
  intros Htag Henc Hlen. unfold VMsg.to_binary.
  rewrite Henc, bind_Ok, !struct_pack_cons. cbn [pack_one struct_pack len].
  rewrite (pack_int_ok 1) by exact Htag. rewrite (pack_int_ok 2) by lia.
  rewrite !bind_Ok.
  apply encode_length in Henc.
  replace (length (VMsg.contents self) - length enc)%nat with O by lia.
  cbn [replicate]. now rewrite !app_nil_r.
Qed.

(** C4. At the one-character text U+00E9, whose UTF-8 encoding is the
    two bytes [C3 A9], the encoder writes the length prefix 1 (the
    number of code points) and the single byte [C3]; the specified
    layout has the prefix 2 and both bytes. *)
Theorem VMsg_to_binary_multibyte (enum : enum_module) :
  -128 <= VTypeMsg enum <= 127 ->
  let self := {| VMsg.contents := [233%N] |} in
  encode (VMsg.contents self) = Ok [xc3; xa9]
  /\ VMsg.to_binary enum self
     = Ok (be_bytes 1 (VTypeMsg enum) ++ [x00; x01] ++ [xc3])
  /\ VMsg_to_binary_claimed enum self
     = Ok (be_bytes 1 (VTypeMsg enum) ++ [x00; x02] ++ [xc3; xa9]).
Proof.
  intros Htag self. split; [reflexivity|].
  unfold VMsg.to_binary, VMsg_to_binary_claimed, self.
  cbn [VMsg.contents].
  change (encode [233%N]) with (Ok (A := bytes) [xc3; xa9]).
  rewrite !bind_Ok, !struct_pack_cons. cbn [pack_one len].
  rewrite !(pack_int_ok 1) by exact Htag.
  split; reflexivity.
Qed.

Lemma VMsg_to_binary_multibyte_witness :
  VMsg.to_binary sample_enum {| VMsg.contents := [233%N] |}
  = Ok [x07; x00; x01; xc3]
  /\ VMsg_to_binary_claimed sample_enum {| VMsg.contents := [233%N] |}
     = Ok [x07; x00; x02; xc3; xa9].
Proof.
  assert (Htag : -128 <= VTypeMsg sample_enum <= 127) by (cbn; lia).
  destruct (VMsg_to_binary_multibyte sample_enum Htag) as (_ & Hcode & Hspec).
  split; [exact Hcode | exact Hspec].
Defined.

(** *** Bind *)

Lemma pack_s_exact (b : bytes) : pack_one (Fs (length b)) (PyBytes b) = Ok b.
Proof.
  cbn [pack_one]. rewrite firstn_all, Nat.sub_diag. cbn [replicate].
  now rewrite app_nil_r.
Qed.

Lemma struct_pack_s_last (b : bytes) :
  struct_pack [Fs (length b)] [PyBytes b] = Ok b.
Proof.
  rewrite struct_pack_cons, pack_s_exact, bind_Ok. cbn [struct_pack].
  rewrite bind_Ok. now rewrite app_nil_r.
Qed.

(** What the encoder writes for the two addresses: the first 32 bytes of
    their text, null-padded when the text is shorter. *)
Lemma BindHeader_to_binary_text (enum : enum_module) (self : BindHeader.t)
    (contract asset : bytes) :
  0 <= TxTypeBind enum <= 65535 ->
  encode (BindHeader.contract self) = Ok contract ->
  encode (BindHeader.asset self) = Ok asset ->
  BindHeader.to_binary enum self
  = Ok (be_bytes 2 (TxTypeBind enum)
        ++ (take 32 contract ++ replicate (32 - length contract) x00)
        ++ (take 32 asset ++ replicate (32 - length asset) x00)
        ++ BindHeader.proof self).
Proof.
  intros Htag Hc Ha. unfold BindHeader.to_binary.
  rewrite Hc, Ha, !bind_Ok.
  rewrite (struct_pack_cons FH), (struct_pack_cons (Fs 32)),
    (struct_pack_cons (Fs 32)), struct_pack_s_last.
  cbn [pack_one]. rewrite (pack_int_ok 2) by exact Htag.
  reflexivity.
Qed.

(** C3. For the contract address [addr_zero] (32 null bytes once
    decoded) and the asset address [addr_ff] (32 bytes [0xFF] once
    decoded) the encoder writes, after the kind tag, the first 32
    characters of each base58 text; the specified layout has the decoded
    bytes. *)
Theorem BindHeader_to_binary_base58_text (enum : enum_module) (proof : bytes) :
  0 <= TxTypeBind enum <= 65535 ->
  let self := BindHeader.__init__ addr_ff addr_zero proof in
  BindHeader.to_binary enum self
  = Ok (be_bytes 2 (TxTypeBind enum)
        ++ list_byte_of_string "11111111111111111111111111111111"
        ++ list_byte_of_string "JEKNVnkbo3jma5nREBBJCDoXFVeKkD56"
        ++ proof)
  /\ BindHeader_to_binary_claimed enum base58_b58decode self
     = Ok (be_bytes 2 (TxTypeBind enum)
           ++ replicate 32 x00 ++ replicate 32 xff ++ proof).
Proof.
  intros Htag self. split.
  - rewrite (BindHeader_to_binary_text enum self
               (list_byte_of_string "11111111111111111111111111111111")
               (list_byte_of_string
                  "JEKNVnkbo3jma5nREBBJCDoXFVeKkD56V3xKrvRmWxFG"));
      [reflexivity | exact Htag | vm_compute; reflexivity
      | vm_compute; reflexivity].
  - unfold BindHeader_to_binary_claimed, self.
    cbn [BindHeader.__init__ BindHeader.contract BindHeader.asset
         BindHeader.proof].
    replace (base58_b58decode addr_zero) with (Ok (replicate 32 x00))
      by (vm_compute; reflexivity).
    replace (base58_b58decode addr_ff) with (Ok (replicate 32 xff))
      by (vm_compute; reflexivity).
    rewrite !bind_Ok.
    rewrite (struct_pack_cons FH), (struct_pack_cons (Fs 32)),
      (struct_pack_cons (Fs 32)), struct_pack_s_last.
    cbn [pack_one]. rewrite (pack_int_ok 2) by exact Htag.
    reflexivity.
Qed.

Lemma BindHeader_to_binary_base58_text_witness :
  BindHeader.to_binary sample_enum (BindHeader.__init__ addr_ff addr_zero [])
  = Ok ([x03; xee]
        ++ list_byte_of_string "11111111111111111111111111111111"
        ++ list_byte_of_string "JEKNVnkbo3jma5nREBBJCDoXFVeKkD56")
  /\ BindHeader_to_binary_claimed sample_enum base58_b58decode
       (BindHeader.__init__ addr_ff addr_zero [])
     = Ok ([x03; xee] ++ replicate 32 x00 ++ replicate 32 xff).
Proof.
  assert (Htag : 0 <= TxTypeBind sample_enum <= 65535) by (cbn; lia).
  destruct (BindHeader_to_binary_base58_text sample_enum [] Htag)
    as [Hcode Hspec].
  split; [exact Hcode | exact Hspec].
Defined.

(** *** AssetType *)

(** Against a value that is no number, [==] is equality of values. *)
Lemma py_eq_decide (a b : pyval) :
  ~ is_number b -> py_eq a b = bool_decide (a = b).
Proof. destruct a, b; cbn [is_number py_eq]; tauto. Qed.

Lemma py_eq_true (a b : pyval) :
  ~ is_number b -> py_eq a b = true <-> a = b.
Proof. intros Hb. rewrite (py_eq_decide a b Hb). apply bool_decide_eq_true. Qed.

Lemma py_eq_false (a b : pyval) :
  ~ is_number b -> py_eq a b = false <-> a <> b.
Proof. intros Hb. rewrite (py_eq_decide a b Hb). apply bool_decide_eq_false. Qed.

(** Against an [int], [==] compares the integer values. *)
Lemma py_eq_int (a : pyval) (p : Z) :
  py_eq a (PyInt p) = true <-> int_value a = Some p.
Proof.
  destruct a; cbn [py_eq int_value]; rewrite bool_decide_eq_true;
    split; congruence.
Qed.

Lemma py_in_true (x : pyval) (l : list pyval) :
  Forall (fun y => ~ is_number y) l -> py_in x l = true <-> x ∈ l.
Proof.
  intros Hl. unfold py_in. rewrite existsb_exists, list_elem_of_In. split.
  - intros (y & Hy & Heq). apply py_eq_true in Heq; [now subst|].
    rewrite Forall_forall in Hl. apply Hl. now apply list_elem_of_In.
  - intros Hx. exists x. split; [exact Hx|]. apply py_eq_true; [|reflexivity].
    rewrite Forall_forall in Hl. apply Hl. now apply list_elem_of_In.
Qed.

Lemma asset_types_not_numbers :
  Forall (fun y => ~ is_number y) AssetType.asset_types.
Proof. repeat constructor; cbn; tauto. Qed.

Lemma non_fractional_kind (kind : str) :
  kind ∈ [lit "Discrete"; lit "Binary"] ->
  kind = lit "Discrete" \/ kind = lit "Binary".
Proof.
  intros Hk. apply elem_of_cons in Hk as [Hk|Hk]; [now left|].
  apply elem_of_cons in Hk as [Hk|Hk]; [now right|].
  now apply elem_of_nil in Hk.
Qed.

(** [prec in [x for x in range(1, 7)]]: the precision is equal to one of
    the integers 1 to 6. *)
Lemma py_in_range_1_7 (prec : pyval) :
  py_in prec (py_range 1 7) = true <-> precision_in_range prec.
Proof.
  unfold py_in, precision_in_range.
  change (py_range 1 7)
    with [PyInt 1; PyInt 2; PyInt 3; PyInt 4; PyInt 5; PyInt 6].
  cbn [existsb]. rewrite !orb_true_iff, !py_eq_int. split.
  - intros Hin.
    repeat (destruct Hin as [Hin|Hin]; [eexists; split; [exact Hin | lia]|]).
    discriminate Hin.
  - intros (p & Hval & Hp). rewrite Hval.
    assert (p = 1 \/ p = 2 \/ p = 3 \/ p = 4 \/ p = 5 \/ p = 6)
      as Hcases by lia.
    repeat (destruct Hcases as [-> | Hcases]; [tauto |]).
    subst. tauto.
Qed.

Lemma py_or_None_in_range (prec : pyval) :
  precision_in_range prec -> py_or_None prec = prec.
Proof.
  intros (p & Hval & Hp). destruct prec as [|z|f| | |]; try discriminate.
  - injection Hval as ->. destruct p; [lia | reflexivity..].
  - destruct f; try reflexivity. injection Hval as <-. lia.
Qed.

Lemma kw_getitem_type (kind : str) (prec : pyval) :
  kw_getitem (asset_type_dict kind prec) "type" = Ok (PyStr kind).
Proof.
  unfold kw_getitem, asset_type_dict.
  rewrite lookup_insert_ne by done. now rewrite lookup_singleton_eq.
Qed.

Lemma kw_getitem_precision (kind : str) (prec : pyval) :
  kw_getitem (asset_type_dict kind prec) "precision" = Ok prec.
Proof.
  unfold kw_getitem, asset_type_dict. now rewrite lookup_insert_eq.
Qed.

(** The constructor on [dict(type=kind, precision=prec)], by cases. *)
Lemma AssetType_init_eval (kind : str) (prec : pyval) :
  AssetType.__init__ (asset_type_dict kind prec) =
  if decide (kind = lit "Fractional") then
    if py_in prec (py_range 1 7)
    then Ok {| AssetType.type := PyStr kind; AssetType.precision := prec |}
    else Raise invalid_precision
  else if decide (kind ∈ [lit "Discrete"; lit "Binary"]) then
    if py_eq prec PyNone
    then Ok {| AssetType.type := PyStr kind; AssetType.precision := PyNone |}
    else Raise precision_not_allowed
  else Raise (invalid_asset_type kind).
Proof.
  unfold AssetType.__init__.
  rewrite kw_getitem_type, bind_Ok, kw_getitem_precision, !bind_Ok.
  destruct (decide (kind = lit "Fractional")) as [->|Hfrac].
  - change (py_in (PyStr (lit "Fractional")) AssetType.asset_types) with true.
    change (py_eq (PyStr (lit "Fractional")) (PyStr AssetFractional)) with true.
    cbv iota. destruct (py_in prec (py_range 1 7)) eqn:Hin; [|reflexivity].
    apply py_in_range_1_7 in Hin. now rewrite (py_or_None_in_range _ Hin).
  - assert (Hne : py_eq (PyStr kind) (PyStr AssetFractional) = false).
    { apply py_eq_false; [cbn; tauto|]. intros [= ->]. now apply Hfrac. }
    destruct (decide (kind ∈ [lit "Discrete"; lit "Binary"])) as [Hin|Hout].
    + assert (Hty : py_in (PyStr kind) AssetType.asset_types = true).
      { apply py_in_true; [exact asset_types_not_numbers|].
        unfold AssetType.asset_types.
        destruct (non_fractional_kind kind Hin) as [-> | ->]; elem_of_list. }
      rewrite Hty, Hne. now destruct (py_eq prec PyNone).
    + assert (Hty : py_in (PyStr kind) AssetType.asset_types = false).
      { apply not_true_is_false.
        rewrite (py_in_true _ _ asset_types_not_numbers).
        unfold AssetType.asset_types. intros Hin.
        apply elem_of_cons in Hin as [[= ->] | Hin]; [now apply Hfrac|].
        apply elem_of_cons in Hin as [[= ->] | Hin];
          [apply Hout; elem_of_list|].
        apply elem_of_cons in Hin as [[= ->] | Hin];
          [apply Hout; elem_of_list|].
        now apply elem_of_nil in Hin. }
      rewrite Hty. reflexivity.
Qed.

(** The objects the constructor returns. *)
Lemma AssetType_init_inv (kind : str) (prec : pyval) (self : AssetType.t) :
  AssetType.__init__ (asset_type_dict kind prec) = Ok self ->
  (kind = lit "Fractional" /\ precision_in_range prec /\
   self = {| AssetType.type := PyStr kind; AssetType.precision := prec |})
  \/ (kind ∈ [lit "Discrete"; lit "Binary"] /\ prec = PyNone /\
      self = {| AssetType.type := PyStr kind; AssetType.precision := PyNone |}).
Proof.
  rewrite AssetType_init_eval.
  destruct (decide (kind = lit "Fractional")) as [->|Hfrac].
  - destruct (py_in prec (py_range 1 7)) eqn:Hin; [|discriminate].
    apply py_in_range_1_7 in Hin. intros [= <-]. left. auto.
  - destruct (decide (kind ∈ [lit "Discrete"; lit "Binary"])); [|discriminate].
    destruct (py_eq prec PyNone) eqn:Hnone; [|discriminate].
    apply py_eq_true in Hnone; [|cbn; tauto]. intros [= <-]. right. auto.
Qed.

(** A precision in range is an integer or a float; a float is refused
    by the code [q]. *)
Lemma precision_in_range_cases (prec : pyval) :
  precision_in_range prec ->
  (exists p, prec = PyInt p /\ 1 <= p <= 6) \/ (exists f, prec = PyFloat f).
Proof.
  intros (p & Hval & Hp). destruct prec as [|z|f| | |]; try discriminate.
  - injection Hval as ->. left. eauto.
  - right. eauto.
Qed.

(** The encoding of a constructed asset type: the length-prefixed kind
    name, then the precision on eight bytes when there is one. *)
Lemma AssetType_to_binary_name (kind : str) (name : bytes) :
  encode kind = Ok name -> Z.of_nat (length kind) <= 65535 ->
  AssetType.to_binary
    {| AssetType.type := PyStr kind; AssetType.precision := PyNone |}
  = Ok (be_bytes 2 (Z.of_nat (length kind))
        ++ (take (length kind) name
            ++ replicate (length kind - length name) x00)).
Proof.
  intros Hname Hlen. unfold AssetType.to_binary.
  cbn [AssetType.type AssetType.precision py_len py_encode].
  rewrite Hname, !bind_Ok, !struct_pack_cons. cbn [pack_one struct_pack].
  rewrite (pack_int_ok 2) by lia. rewrite !bind_Ok.
  now rewrite !app_nil_r.
Qed.

Lemma AssetType_to_binary_precision (kind : str) (name : bytes) (p : Z) :
  encode kind = Ok name -> Z.of_nat (length kind) <= 65535 ->
  - 2 ^ 63 <= p <= 2 ^ 63 - 1 ->
  AssetType.to_binary
    {| AssetType.type := PyStr kind; AssetType.precision := PyInt p |}
  = Ok ((be_bytes 2 (Z.of_nat (length kind))
         ++ (take (length kind) name
             ++ replicate (length kind - length name) x00))
        ++ be_bytes 8 p).
Proof.
  intros Hname Hlen Hp. unfold AssetType.to_binary.
  cbn [AssetType.type AssetType.precision py_len py_encode].
  rewrite Hname, !bind_Ok, !struct_pack_cons. cbn [pack_one struct_pack].
  rewrite (pack_int_ok 2) by lia. rewrite (pack_int_ok 8) by exact Hp.
  rewrite !bind_Ok. now rewrite !app_nil_r.
Qed.

(** A float precision reaches the code [q], which refuses it. *)
Lemma AssetType_to_binary_float (kind : str) (name : bytes) (f : spec_float) :
  encode kind = Ok name -> Z.of_nat (length kind) <= 65535 ->
  AssetType.to_binary
    {| AssetType.type := PyStr kind; AssetType.precision := PyFloat f |}
  = Raise StructError.
Proof.
  intros Hname Hlen. unfold AssetType.to_binary.
  cbn [AssetType.type AssetType.precision py_len py_encode].
  rewrite Hname, !bind_Ok, !struct_pack_cons. cbn [pack_one struct_pack].
  rewrite (pack_int_ok 2) by lia. rewrite !bind_Ok. reflexivity.
Qed.

(** C6. On [dict(type=kind, precision=prec)] the constructor returns
    exactly when the kind is Fractional and the precision is equal to
    one of the integers 1 to 6 (as [in] compares: the float [2.0] is,
    [2.5], 7 and [None] are not), or the kind is Discrete or Binary and
    the precision is [None].  A Fractional kind with any other precision
    raises the invalid-precision error, a Discrete or Binary kind with a
    precision raises the precision-not-allowed error, any other kind
    raises the invalid-asset-type error.  None of these errors is left
    to the encoder: on a constructed asset type [to_binary] raises no
    [ValueError]; it returns, unless the precision is a float, which the
    code [q] refuses. *)
Theorem AssetType_init_validation (kind : str) (prec : pyval) :
  let d := asset_type_dict kind prec in
  (returns (AssetType.__init__ d) <->
     (kind = lit "Fractional" /\ precision_in_range prec)
     \/ (kind ∈ [lit "Discrete"; lit "Binary"] /\ prec = PyNone))
  /\ (kind = lit "Fractional" -> ~ precision_in_range prec ->
      AssetType.__init__ d = Raise invalid_precision)
  /\ (kind ∈ [lit "Discrete"; lit "Binary"] -> prec <> PyNone ->
      AssetType.__init__ d = Raise precision_not_allowed)
  /\ (kind ∉ [lit "Fractional"; lit "Discrete"; lit "Binary"] ->
      AssetType.__init__ d = Raise (invalid_asset_type kind))
  /\ (forall self, AssetType.__init__ d = Ok self ->
      (forall msg, AssetType.to_binary self <> Raise (ValueError msg))
      /\ (returns (AssetType.to_binary self) <->
          forall f, prec <> PyFloat f)).
Proof.
  intros d. unfold d. split; [split | split; [|split; [|split]]].
  - intros [self Hself]. apply AssetType_init_inv in Hself.
    destruct Hself as [(-> & Hrange & _) | (Hk & -> & _)].
    + left. auto.
    + right. auto.
  - rewrite AssetType_init_eval.
    intros [[-> Hrange] | [Hk ->]].
    + apply py_in_range_1_7 in Hrange.
      rewrite decide_True by reflexivity. rewrite Hrange.
      eexists; reflexivity.
    + assert (kind <> lit "Fractional") as Hne.
      { destruct (non_fractional_kind kind Hk) as [-> | ->]; discriminate. }
      rewrite decide_False by exact Hne. rewrite decide_True by exact Hk.
      eexists; reflexivity.
  - intros -> Hrange. rewrite AssetType_init_eval.
    rewrite decide_True by reflexivity.
    destruct (py_in prec (py_range 1 7)) eqn:Hin; [|reflexivity].
    apply py_in_range_1_7 in Hin. contradiction.
  - intros Hk Hprec. rewrite AssetType_init_eval.
    assert (kind <> lit "Fractional") as Hne.
    { destruct (non_fractional_kind kind Hk) as [-> | ->]; discriminate. }
    rewrite decide_False by exact Hne. rewrite decide_True by exact Hk.
    destruct (py_eq prec PyNone) eqn:Hnone; [|reflexivity].
    apply py_eq_true in Hnone; [contradiction | cbn; tauto].
  - intros Hk. rewrite AssetType_init_eval.
    rewrite decide_False.
    2:{ intros ->. apply Hk. elem_of_list. }
    rewrite decide_False; [reflexivity|].
    intros Hin. apply Hk. apply elem_of_cons. now right.
  - intros self Hself. apply AssetType_init_inv in Hself.
    destruct Hself as [(-> & Hrange & ->) | (Hk & -> & ->)].
    + destruct (precision_in_range_cases _ Hrange)
        as [(p & -> & Hp) | (f & ->)].
      * rewrite (AssetType_to_binary_precision (lit "Fractional")
                   (list_byte_of_string "Fractional") p);
          [|reflexivity | cbn; lia | lia].
        split; [discriminate|]. split; [discriminate|].
        intros _. eexists; reflexivity.
      * rewrite (AssetType_to_binary_float (lit "Fractional")
                   (list_byte_of_string "Fractional") f);
          [|reflexivity | cbn; lia].
        split; [discriminate|]. split.
        -- intros [out Hout]. discriminate Hout.
        -- intros Hnf. exfalso. now apply (Hnf f).
    + destruct (non_fractional_kind kind Hk) as [-> | ->].
      * rewrite (AssetType_to_binary_name (lit "Discrete")
                   (list_byte_of_string "Discrete"));
          [|reflexivity | cbn; lia].
        split; [discriminate|]. split; [discriminate|].
        intros _. eexists; reflexivity.
      * rewrite (AssetType_to_binary_name (lit "Binary")
                   (list_byte_of_string "Binary"));
          [|reflexivity | cbn; lia].
        split; [discriminate|]. split; [discriminate|].
        intros _. eexists; reflexivity.
Qed.

Lemma AssetType_init_validation_witness :
  AssetType.__init__ (asset_type_dict (lit "Fractional") (PyInt 7))
  = Raise invalid_precision
  /\ AssetType.__init__ (asset_type_dict (lit "Fractional") (PyFloat float_2_5))
     = Raise invalid_precision
  /\ returns (AssetType.__init__ (asset_type_dict (lit "Fractional") (PyInt 3)))
  /\ returns
       (AssetType.__init__
          (asset_type_dict (lit "Fractional") (PyFloat float_two)))
  /\ AssetType.__init__ (asset_type_dict (lit "Discrete") (PyInt 3))
     = Raise precision_not_allowed
  /\ AssetType.__init__ (asset_type_dict (lit "Bond") PyNone)
     = Raise (invalid_asset_type (lit "Bond"))
  /\ (forall self,
        AssetType.__init__ (asset_type_dict (lit "Fractional") (PyInt 3))
        = Ok self -> returns (AssetType.to_binary self))
  /\ (forall self,
        AssetType.__init__
          (asset_type_dict (lit "Fractional") (PyFloat float_two))
        = Ok self -> ~ returns (AssetType.to_binary self)).
Proof.
  split; [|split; [|split; [|split; [|split; [|split; [|split]]]]]].
  - destruct (AssetType_init_validation (lit "Fractional") (PyInt 7))
      as (_ & Hprec & _).
    apply Hprec; [reflexivity|]. intros (p & [= <-] & Hp). lia.
  - destruct (AssetType_init_validation (lit "Fractional") (PyFloat float_2_5))
      as (_ & Hprec & _).
    apply Hprec; [reflexivity|]. intros (p & Hval & Hp). discriminate Hval.
  - destruct (AssetType_init_validation (lit "Fractional") (PyInt 3))
      as (Hiff & _).
    apply Hiff. left. split; [reflexivity|]. exists 3. split; [reflexivity|lia].
  - destruct (AssetType_init_validation (lit "Fractional") (PyFloat float_two))
      as (Hiff & _).
    apply Hiff. left. split; [reflexivity|]. exists 2. split; [reflexivity|lia].
  - destruct (AssetType_init_validation (lit "Discrete") (PyInt 3))
      as (_ & _ & Hnot & _).
    apply Hnot; [elem_of_list | discriminate].
  - destruct (AssetType_init_validation (lit "Bond") PyNone)
      as (_ & _ & _ & Hkind & _).
    apply Hkind. intros Hin.
    repeat (apply elem_of_cons in Hin as [Hin|Hin]; [discriminate|]).
    now apply elem_of_nil in Hin.
  - intros self Hself.
    destruct (AssetType_init_validation (lit "Fractional") (PyInt 3))
      as (_ & _ & _ & _ & Henc).
    apply (Henc self Hself). discriminate.
  - intros self Hself Hret.
    destruct (AssetType_init_validation (lit "Fractional")
                (PyFloat float_two)) as (_ & _ & _ & _ & Henc).
    pose proof (proj1 (proj2 (Henc self Hself)) Hret) as Hnf.
    now apply (Hnf float_two).
Defined.

(** C7. A constructed asset type has a kind name that encodes, and
    [to_binary] gives the two-byte length of the UTF-8 kind name and the
    name, followed, for the Fractional kind with an integer precision,
    by the precision as an eight-byte signed integer: that encoding is
    eight bytes longer than the length-prefixed name, and a Discrete or
    Binary encoding is the length-prefixed name alone.  A Fractional
    asset type constructed with a float precision (the constructor
    admits [2.0]) has no encoding: [to_binary] raises [struct.error]. *)
Theorem AssetType_to_binary_layout
    (kind : str) (prec : pyval) (self : AssetType.t) :
  AssetType.__init__ (asset_type_dict kind prec) = Ok self ->
  exists name, encode kind = Ok name /\
    let named := be_bytes 2 (Z.of_nat (length name)) ++ name in
    (kind = lit "Fractional" /\
     ((exists p, prec = PyInt p /\ 1 <= p <= 6 /\
         AssetType.to_binary self = Ok (named ++ be_bytes 8 p) /\
         length (named ++ be_bytes 8 p) = (length named + 8)%nat)
      \/ (exists f, prec = PyFloat f /\
            AssetType.to_binary self = Raise StructError)))
    \/ (kind <> lit "Fractional" /\ prec = PyNone /\
        AssetType.to_binary self = Ok named).
Proof.
  intros Hself. apply AssetType_init_inv in Hself.
  destruct Hself as [(-> & Hrange & ->) | (Hk & -> & ->)].
  - exists (list_byte_of_string "Fractional").
    split; [reflexivity|]. left. split; [reflexivity|].
    destruct (precision_in_range_cases _ Hrange)
      as [(p & -> & Hp) | (f & ->)].
    + left. exists p. split; [reflexivity|]. split; [exact Hp|]. split.
      * rewrite (AssetType_to_binary_precision (lit "Fractional")
                   (list_byte_of_string "Fractional") p);
          [reflexivity | reflexivity | cbn; lia | lia].
      * now rewrite length_app, length_be_bytes.
    + right. exists f. split; [reflexivity|].
      apply (AssetType_to_binary_float (lit "Fractional")
               (list_byte_of_string "Fractional") f);
        [reflexivity | cbn; lia].
  - destruct (non_fractional_kind kind Hk) as [-> | ->].
    + exists (list_byte_of_string "Discrete").
      split; [reflexivity|]. right. split; [discriminate|].
      split; [reflexivity|].
      rewrite (AssetType_to_binary_name (lit "Discrete")
                 (list_byte_of_string "Discrete"));
        [reflexivity | reflexivity | cbn; lia].
    + exists (list_byte_of_string "Binary").
      split; [reflexivity|]. right. split; [discriminate|].
      split; [reflexivity|].
      rewrite (AssetType_to_binary_name (lit "Binary")
                 (list_byte_of_string "Binary"));
        [reflexivity | reflexivity | cbn; lia].
Qed.

Lemma AssetType_to_binary_layout_witness :
  (exists self,
     AssetType.__init__ (asset_type_dict (lit "Fractional") (PyFloat float_two))
     = Ok self
     /\ AssetType.to_binary self = Raise StructError)
  /\ (exists self,
        AssetType.__init__ (asset_type_dict (lit "Fractional") (PyInt 3))
        = Ok self
        /\ AssetType.to_binary self
           = Ok ([x00; x0a] ++ list_byte_of_string "Fractional"
                 ++ [x00; x00; x00; x00; x00; x00; x00; x03])).
Proof.
  split.
  - eexists. split; [reflexivity|].
    destruct (AssetType_to_binary_layout
                (lit "Fractional") (PyFloat float_two) _ eq_refl)
      as (name & Hname & [(_ & [(p & Hp & _) | (f & _ & Hbin)]) | (Hne & _)]).
    + discriminate Hp.
    + exact Hbin.
    + exfalso. apply Hne. reflexivity.
  - eexists. split; [reflexivity|].
    destruct (AssetType_to_binary_layout
                (lit "Fractional") (PyInt 3) _ eq_refl)
      as (name & Hname & [(_ & [(p & Hp & _ & Hbin & _) | (f & Hf & _)])
                         | (Hne & _)]).
    + injection Hname as <-. injection Hp as <-. exact Hbin.
    + discriminate Hf.
    + exfalso. apply Hne. reflexivity.
Defined.

(** *** AssetRef *)

(** C10. For each of the six recognized references the constructor
    returns an object, and on every constructed object [to_binary]
    raises [AttributeError]: it reads the attribute [type], which the
    constructor does not assign and the class does not define. *)
Theorem AssetRef_to_binary_raises (asset_ref : str) :
  (asset_ref ∈ AssetRef.asset_refs -> returns (AssetRef.__init__ asset_ref))
  /\ (forall self, AssetRef.__init__ asset_ref = Ok self ->
      AssetRef.to_binary self = Raise (AttributeError "type")).
Proof.
  unfold AssetRef.__init__. split.
  - intros Hin. rewrite decide_True by exact Hin. eexists; reflexivity.
  - intros self. destruct (decide (asset_ref ∈ AssetRef.asset_refs));
      [|discriminate].
    intros [= <-]. unfold AssetRef.to_binary, getattr.
    rewrite (lookup_singleton_ne "ref" "type") by done.
    reflexivity.
Qed.

Lemma AssetRef_to_binary_raises_witness :
  exists self, AssetRef.__init__ (lit "USD") = Ok self
    /\ AssetRef.to_binary self = Raise (AttributeError "type").
Proof.
  destruct (AssetRef_to_binary_raises (lit "USD")) as [Hinit Hraise].
  destruct Hinit as [self Hself]; [unfold AssetRef.asset_refs; elem_of_list|].
  exists self. split; [exact Hself | exact (Hraise self Hself)].
Defined.

(** *** Signing *)

(** C9. With a fixed nonce, signing a header with a key gives the same
    signature whatever entropy is available; the signer receives
    exactly the bytes [to_binary] returns, and an exception of
    [to_binary] is the exception of [sign]. *)
Theorem sign_fixed_nonce_deterministic
    {privkey nonce signature entropy : Type}
    `{Signer privkey nonce signature entropy}
    {A : Type} `{Serializable A}
    (self : A) (key : privkey) (k : nonce) (e1 e2 : entropy) :
  sign self key (Some k) e1 = sign self key (Some k) e2
  /\ (forall stream, to_binary self = Ok stream ->
      forall k' e, sign self key k' e = ecdsa_sign key stream k' e)
  /\ (forall ex, to_binary self = Raise ex ->
      forall k' e, sign self key k' e = Raise ex).
Proof.
  unfold sign. split; [|split].
  - destruct (to_binary self) as [stream|ex]; [|reflexivity].
    rewrite !bind_Ok. apply ecdsa_sign_fixed_nonce.
  - intros stream ->. reflexivity.
  - intros ex ->. reflexivity.
Qed.

Lemma sign_fixed_nonce_deterministic_witness :
  let header :=
    {| TransferAssetHeader.assetAddr := addr_zero;
       TransferAssetHeader.toAddr := addr_ff;
       TransferAssetHeader.balance := -5 |} in
  let to_binary_ : Serializable TransferAssetHeader.t :=
    TransferAssetHeader.to_binary sample_enum base58_b58decode in
  sign (H := sample_signer) (H0 := to_binary_) header 11 (Some 5) 1
  = sign (H := sample_signer) (H0 := to_binary_) header 11 (Some 5) 2.
Proof.
  intros header to_binary_.
  exact (proj1 (sign_fixed_nonce_deterministic
                  (H := sample_signer) (H0 := to_binary_) header 11 5 1 2)).
Defined.

(** *** DateTime *)

(** X3. A [tzinfo] that is not an integer is refused by the [Q] code. *)
Lemma VDateTime_to_binary_tzinfo_not_int
    (enum : enum_module) (self : VDateTime.t) (dayofweek : Z) :
  date_weekday (VDateTime.year (VDateTime.contents self))
    (VDateTime.month (VDateTime.contents self))
    (VDateTime.day (VDateTime.contents self)) = Ok dayofweek ->
  (forall z, VDateTime.tzinfo (VDateTime.contents self) <> PyInt z) ->
  VDateTime.to_binary enum self = Raise StructError.
Proof.
  intros Hdow Htz. unfold VDateTime.to_binary. cbv zeta.
  rewrite Hdow, bind_Ok.
  apply (struct_pack_refuses _ _ 7 FQ
           (VDateTime.tzinfo (VDateTime.contents self)));
    [reflexivity | reflexivity |].
  destruct (VDateTime.tzinfo (VDateTime.contents self)) as [|z| | | |];
    try reflexivity.
  now destruct (Htz z).
Qed.

Lemma days_in_month_le (year month : Z) : days_in_month year month <= 31.
Proof.
  unfold days_in_month, DAYS_IN_MONTH.
  destruct (_ && _); [lia|].
  generalize (Z.to_nat month) as n. intros n.
  do 13 (destruct n as [|n]; [cbn; lia|]).
  destruct n; cbn; lia.
Qed.

Lemma date_weekday_range (year month day dayofweek : Z) :
  date_weekday year month day = Ok dayofweek ->
  1 <= year <= 9999 /\ 1 <= month <= 12 /\ 1 <= day <= 31
  /\ 0 <= dayofweek < 7.
Proof.
  unfold date_weekday.
  destruct (_ && _) eqn:Hvalid; [|discriminate].
  repeat (apply andb_prop in Hvalid as [Hvalid ?]).
  intros [= <-].
  pose proof (Z.mod_pos_bound (ymd2ord year month day + 6) 7).
  pose proof (days_in_month_le year month).
  lia.
Qed.

(** C5. On every [datetime.datetime], naive or aware, [to_binary]
    raises [struct.error]: the format [>bQQQQQQQQ] gives the code [Q] to
    the [tzinfo] attribute, which is [None] or a [tzinfo] object, where
    the claim has the time-zone offset written on eight bytes.  And no
    result has 73 bytes: whatever the format returns has 1 + 8 * 8 = 65
    bytes. *)
Theorem VDateTime_to_binary_datetime_raises
    (enum : enum_module) (self : VDateTime.t) :
  (datetime_object (VDateTime.contents self) ->
   VDateTime.to_binary enum self = Raise StructError)
  /\ (forall out, VDateTime.to_binary enum self = Ok out ->
      length out = 65%nat).
Proof.
  unfold VDateTime.to_binary. cbv zeta. split.
  - intros ([dayofweek Hdow] & _ & _ & _ & Htz).
    rewrite Hdow, bind_Ok.
    apply (struct_pack_refuses _ _ 7 FQ
             (VDateTime.tzinfo (VDateTime.contents self)));
      [reflexivity | reflexivity |].
    destruct Htz as [-> | [cls ->]]; reflexivity.
  - intros out.
    destruct (date_weekday _ _ _) as [dayofweek|]; [|discriminate].
    rewrite bind_Ok. intros Hout.
    now apply length_struct_pack in Hout.
Qed.

Lemma VDateTime_to_binary_datetime_raises_witness :
  VDateTime.to_binary sample_enum {| VDateTime.contents := naive_datetime |}
  = Raise StructError
  /\ VDateTime.to_binary sample_enum {| VDateTime.contents := aware_datetime |}
     = Raise StructError.
Proof.
  split.
  - apply (proj1 (VDateTime_to_binary_datetime_raises sample_enum
                    {| VDateTime.contents := naive_datetime |})).
    split; [eexists; reflexivity|].
    cbn. split; [lia|]. split; [lia|]. split; [lia|]. now left.
  - apply (proj1 (VDateTime_to_binary_datetime_raises sample_enum
                    {| VDateTime.contents := aware_datetime |})).
    split; [eexists; reflexivity|].
    cbn. split; [lia|]. split; [lia|]. split; [lia|]. right. now eexists.
Defined.

(** *** CreateAsset *)

(** A header constructed with the Fractional kind. *)
Lemma CreateAssetHeader_init_fractional
    (derive : str -> str -> pyval -> str -> AssetType.t -> str)
    (name : str) (supply : pyval) (reference issuer : str) (prec : pyval)
    (self : CreateAssetHeader.t) :
  CreateAssetHeader.__init__ derive name supply (lit "Fractional")
    reference issuer prec = Ok self ->
  precision_in_range prec /\
    CreateAssetHeader.assetName self = name /\
    py_int supply = Ok (CreateAssetHeader.supply self) /\
    CreateAssetHeader.reference self = reference /\
    CreateAssetHeader.assetType self
    = {| AssetTypeParams.tag := list_byte_of_string "Fractional";
         AssetTypeParams.contents := prec |}.
Proof.
  unfold CreateAssetHeader.__init__.
  destruct (AssetType.__init__ _) as [asset_type_|] eqn:Hty; [|discriminate].
  apply AssetType_init_inv in Hty.
  destruct Hty as [(_ & Hrange & _) | (Hk & _)].
  - rewrite bind_Ok.
    destruct (py_int supply) as [supply_|]; [|discriminate].
    rewrite bind_Ok.
    change (AssetTypeParams.__init__ (lit "Fractional") prec)
      with (Ok {| AssetTypeParams.tag := list_byte_of_string "Fractional";
                  AssetTypeParams.contents := prec |}).
    rewrite bind_Ok. intros [= <-]. auto 10.
  - destruct (non_fractional_kind _ Hk) as [Hk'|Hk'];
      vm_compute in Hk'; discriminate Hk'.
Qed.

(** C2. For a header constructed with the Fractional kind (ASCII name
    and reference), wherever the specified layout is defined it is the
    encoder's output followed by the eight precision bytes: the encoder
    writes the common record and no precision field. *)
Theorem CreateAssetHeader_to_binary_fractional
    (derive : str -> str -> pyval -> str -> AssetType.t -> str)
    (enum : enum_module) (b58decode : str -> result bytes)
    (name : str) (supply : Z) (reference issuer : str) (prec : pyval)
    (self : CreateAssetHeader.t) (out : bytes) :
  CreateAssetHeader.__init__ derive name (PyInt supply) (lit "Fractional")
    reference issuer prec = Ok self ->
  ascii_text name -> ascii_text reference ->
  CreateAssetHeader_to_binary_claimed enum b58decode self = Ok out ->
  exists p record,
    prec = PyInt p /\ 1 <= p <= 6
    /\ out = record ++ be_bytes 8 p
    /\ CreateAssetHeader.to_binary enum b58decode self = Ok record.
Proof.
  intros Hinit Hname Href.
  apply CreateAssetHeader_init_fractional in Hinit
    as (Hrange & Hn & [= Hs] & Hr & Ht).
  unfold CreateAssetHeader_to_binary_claimed, CreateAssetHeader.to_binary.
  rewrite Hn, <- Hs, Hr, Ht. cbv zeta. cbn [AssetTypeParams.tag AssetTypeParams.contents].
  rewrite (encode_ascii name Hname), (encode_ascii reference Href).
  change (py_eq (PyBytes (list_byte_of_string "Fractional"))
            (PyStr (lit "Fractional"))) with false.
  cbv iota.
  destruct (b58decode (CreateAssetHeader.assetAddr self)) as [addr|];
    [|discriminate].
  rewrite !bind_Ok. unfold len. rewrite !length_fmap.
  match goal with
  | |- context [struct_pack (FH :: ?fs) ?vs] =>
      destruct (struct_pack (FH :: fs) vs) as [record|]; [|discriminate]
  end.
  rewrite bind_Ok, decide_True by reflexivity.
  destruct (precision_in_range_cases _ Hrange)
    as [(p & -> & Hp) | (f & ->)]; [|discriminate].
  rewrite struct_pack_cons. cbn [pack_one struct_pack].
  rewrite (pack_int_ok 8) by lia. rewrite !bind_Ok, app_nil_r.
  intros [= <-]. exists p, record. auto.
Qed.

Lemma CreateAssetHeader_to_binary_fractional_witness :
  let record :=
    [x03; xeb] ++ replicate 32 x00
    ++ [x00; x04] ++ list_byte_of_string "gold"
    ++ be_bytes 8 100 ++ [x00; x01]
    ++ [x00; x05] ++ list_byte_of_string "Token"
    ++ [x00; x0a] ++ list_byte_of_string "Fractional" in
  exists self,
    CreateAssetHeader.__init__ sample_derive (lit "gold") (PyInt 100)
      (lit "Fractional") (lit "Token") addr_zero (PyInt 3) = Ok self
    /\ CreateAssetHeader.to_binary sample_enum base58_b58decode self
       = Ok record
    /\ CreateAssetHeader_to_binary_claimed sample_enum base58_b58decode self
       = Ok (record ++ [x00; x00; x00; x00; x00; x00; x00; x03]).
Proof.
  intros record0. eexists.
  edestruct (CreateAssetHeader_to_binary_fractional sample_derive sample_enum
               base58_b58decode (lit "gold") 100 (lit "Token") addr_zero
               (PyInt 3))
    as (p & record & Hp & _ & Hout & Hcode).
  - reflexivity.
  - unfold ascii_text. repeat constructor.
  - unfold ascii_text. repeat constructor.
  - vm_compute. reflexivity.
  - injection Hp as <-. vm_compute in Hcode. injection Hcode as <-.
    split; [reflexivity|]. split; vm_compute; reflexivity.
Defined.

(** *** CreateAccount *)

#[global] Instance str_le_total : Total str_le.
Proof.
  intros a. induction a as [|x a IH]; intros [|y b]; unfold str_le in *;
    cbn [str_leb]; auto.
  destruct (N.ltb_spec x y), (N.ltb_spec y x); auto; try lia.
  assert (x = y) as -> by lia. rewrite N.eqb_refl. apply IH.
Qed.

#[global] Instance str_le_trans : Transitive str_le.
Proof.
  intros a. induction a as [|x a IH]; intros [|y b] [|z c];
    unfold str_le in *; cbn [str_leb]; auto; try discriminate.
  destruct (N.ltb_spec x y), (N.ltb_spec y z), (N.ltb_spec x z);
    auto; try lia;
    destruct (N.eqb_spec x y), (N.eqb_spec y z), (N.eqb_spec x z);
    auto; try lia; try discriminate.
  apply IH.
Qed.

#[global] Instance str_le_antisymm : AntiSymm (=) str_le.
Proof.
  intros a. induction a as [|x a IH]; intros [|y b];
    unfold str_le in *; cbn [str_leb]; auto; try discriminate.
  destruct (N.ltb_spec x y), (N.ltb_spec y x),
    (N.eqb_spec x y), (N.eqb_spec y x);
    try (exfalso; lia); try discriminate.
  subst. intros Hab Hba. f_equal. now apply IH.
Qed.

(** [sorted] returns its argument in ascending order, whatever order it
    came in. *)
Lemma sorted_StronglySorted (l : list str) : StronglySorted str_le (sorted l).
Proof. apply StronglySorted_merge_sort; apply _. Qed.

Lemma sorted_Permutation (l1 l2 : list str) :
  l1 ≡ₚ l2 -> sorted l1 = sorted l2.
Proof.
  intros Hperm. apply (StronglySorted_unique str_le);
    try apply sorted_StronglySorted.
  unfold sorted. now rewrite !merge_sort_Permutation.
Qed.

(** Any ascending arrangement of the keys is the one [sorted] returns:
    the result does not depend on the sorting algorithm. *)
Lemma sorted_spec (l l' : list str) :
  StronglySorted str_le l' -> l' ≡ₚ l -> l' = sorted l.
Proof.
  intros Hsorted Hperm.
  apply (StronglySorted_unique str_le);
    [exact Hsorted | apply sorted_StronglySorted |].
  unfold sorted. now rewrite merge_sort_Permutation.
Qed.

(** Lookup does not depend on the insertion order. *)
Lemma getitem_Permutation (m1 m2 : dict) (key : str) :
  dict_wf m1 -> m1 ≡ₚ m2 -> getitem m1 key = getitem m2 key.
Proof.
  unfold dict_wf. intros Hwf Hperm. induction Hperm as
    [|[k v] l l' Hperm IH|[k1 v1] [k2 v2] l|l l' l'' Hperm1 IH1 Hperm2 IH2].
  - reflexivity.
  - cbn [getitem]. apply NoDup_cons in Hwf as [_ Hwf].
    now rewrite (IH Hwf).
  - cbn [getitem]. cbn in Hwf.
    apply NoDup_cons in Hwf as [Hnotin _].
    destruct (decide (k1 = key)) as [->|], (decide (k2 = key)) as [->|];
      try reflexivity.
    exfalso. apply Hnotin. apply elem_of_cons. now left.
  - rewrite (IH1 Hwf). apply IH2.
    assert (Hkeys : l.*1 ≡ₚ l'.*1) by now apply fmap_Permutation.
    now rewrite <- Hkeys.
Qed.

Lemma pack_items_Permutation (m1 m2 : dict) (keys : list str) (acc : bytes) :
  dict_wf m1 -> m1 ≡ₚ m2 ->
  CreateAccountHeader.pack_items m1 keys acc
  = CreateAccountHeader.pack_items m2 keys acc.
Proof.
  intros Hwf Hperm. revert acc.
  induction keys as [|key keys IH]; intros acc; [reflexivity|].
  cbn [CreateAccountHeader.pack_items]. unfold CreateAccountHeader.pack_item.
  rewrite (getitem_Permutation m1 m2 key Hwf Hperm).
  destruct (getitem m2 key) as [value|]; [|reflexivity].
  rewrite !bind_Ok.
  destruct (encode key) as [key_enc|]; [|reflexivity]. rewrite !bind_Ok.
  destruct (encode value) as [value_enc|]; [|reflexivity]. rewrite !bind_Ok.
  destruct (struct_pack _ _) as [metapack|]; [|reflexivity].
  rewrite !bind_Ok. apply IH.
Qed.

Lemma pack_s_encoded (s : str) (enc : bytes) :
  encode s = Ok enc ->
  pack_one (Fs (length s)) (PyBytes enc) = Ok (take (length s) enc).
Proof.
  intros Henc. apply encode_length in Henc. cbn [pack_one].
  replace (length s - length enc)%nat with O by lia.
  cbn [replicate]. now rewrite app_nil_r.
Qed.

Lemma pack_items_Forall2 (metadata : dict) (keys : list str)
    (items : list bytes) (acc : bytes) :
  Forall2 (fun key item => CreateAccountHeader.pack_item metadata key = Ok item)
    keys items ->
  CreateAccountHeader.pack_items metadata keys acc = Ok (acc ++ mjoin items).
Proof.
  intros Hitems. revert acc.
  induction Hitems as [|key item keys items Hitem _ IH]; intros acc.
  - cbn [CreateAccountHeader.pack_items mjoin list_join]. now rewrite app_nil_r.
  - cbn [CreateAccountHeader.pack_items]. rewrite Hitem, bind_Ok, IH.
    cbn [mjoin list_join]. now rewrite app_assoc.
Qed.

(** The record as [to_binary] builds it, in both branches: the fields
    before the metadata, the number of items, and the items packed over
    the sorted keys. *)
Lemma CreateAccountHeader_to_binary_sorted
    (enum : enum_module) (pubKey : bytes) (timezone : str) (metadata : dict)
    (tz : bytes) (items : list bytes) :
  encode timezone = Ok tz ->
  0 <= TxTypeCreateAccount enum <= 65535 ->
  Z.of_nat (length pubKey) <= 65535 ->
  Z.of_nat (length timezone) <= 65535 ->
  Z.of_nat (length metadata) <= 65535 ->
  Forall2 (fun key item => CreateAccountHeader.pack_item metadata key = Ok item)
    (sorted (iterkeys metadata)) items ->
  CreateAccountHeader.to_binary enum
    {| CreateAccountHeader.pubKey := pubKey;
       CreateAccountHeader.timezone := timezone;
       CreateAccountHeader.metadata := metadata |}
  = Ok (be_bytes 2 (TxTypeCreateAccount enum)
        ++ be_bytes 2 (Z.of_nat (length pubKey)) ++ pubKey
        ++ be_bytes 2 (Z.of_nat (length timezone))
        ++ take (length timezone) tz
        ++ be_bytes 2 (Z.of_nat (length metadata))
        ++ mjoin items).
Proof.
  intros Htz Htag Hkey Hzone Hcount Hitems.
  unfold CreateAccountHeader.to_binary. cbv zeta.
  cbn [CreateAccountHeader.pubKey CreateAccountHeader.timezone
       CreateAccountHeader.metadata].
  destruct metadata as [|item0 metadata].
  - apply Forall2_nil_inv_l in Hitems as ->.
    cbn [length Nat.ltb Nat.leb]. rewrite Htz, bind_Ok.
    rewrite !struct_pack_cons, pack_s_exact, (pack_s_encoded _ _ Htz).
    cbn [pack_one len struct_pack mjoin list_join length].
    rewrite !(pack_int_ok 2) by lia. rewrite !bind_Ok.
    now rewrite !app_nil_r.
  - change (0 <? length (item0 :: metadata))%nat with true. cbv iota.
    rewrite Htz, bind_Ok.
    rewrite !struct_pack_cons, pack_s_exact, (pack_s_encoded _ _ Htz).
    cbn [pack_one len struct_pack].
    rewrite !(pack_int_ok 2) by lia. rewrite !bind_Ok.
    rewrite (pack_items_Forall2 _ _ _ _ Hitems), bind_Ok.
    cbn [app]. now rewrite !app_nil_r, <- !app_assoc.
Qed.

(** C1. Two metadata dictionaries with the same items in different
    insertion orders give the same bytes (or the same exception),
    because the encoder visits the keys in ascending lexicographic
    order: the sorted keys of the first dictionary are an ascending
    arrangement of the keys of the second, and the record encoded for
    the second is the fields before the metadata, the number of items,
    and then the items packed one after the other in that ascending
    order. *)
Theorem CreateAccountHeader_to_binary_insertion_order
    (enum : enum_module) (pubKey : bytes) (timezone : str) (m1 m2 : dict) :
  dict_wf m1 -> m1 ≡ₚ m2 ->
  StronglySorted str_le (sorted (iterkeys m1))
  /\ sorted (iterkeys m1) = sorted (iterkeys m2)
  /\ CreateAccountHeader.to_binary enum
       {| CreateAccountHeader.pubKey := pubKey;
          CreateAccountHeader.timezone := timezone;
          CreateAccountHeader.metadata := m1 |}
     = CreateAccountHeader.to_binary enum
         {| CreateAccountHeader.pubKey := pubKey;
            CreateAccountHeader.timezone := timezone;
            CreateAccountHeader.metadata := m2 |}
  /\ sorted (iterkeys m1) ≡ₚ iterkeys m2
  /\ (forall tz items,
        encode timezone = Ok tz ->
        0 <= TxTypeCreateAccount enum <= 65535 ->
        Z.of_nat (length pubKey) <= 65535 ->
        Z.of_nat (length timezone) <= 65535 ->
        Z.of_nat (length m1) <= 65535 ->
        Forall2
          (fun key item => CreateAccountHeader.pack_item m1 key = Ok item)
          (sorted (iterkeys m1)) items ->
        CreateAccountHeader.to_binary enum
          {| CreateAccountHeader.pubKey := pubKey;
             CreateAccountHeader.timezone := timezone;
             CreateAccountHeader.metadata := m2 |}
        = Ok (be_bytes 2 (TxTypeCreateAccount enum)
              ++ be_bytes 2 (Z.of_nat (length pubKey)) ++ pubKey
              ++ be_bytes 2 (Z.of_nat (length timezone))
              ++ take (length timezone) tz
              ++ be_bytes 2 (Z.of_nat (length m2))
              ++ mjoin items)).
Proof.
  intros Hwf Hperm.
  assert (Hkeys : sorted (iterkeys m1) = sorted (iterkeys m2)).
  { apply sorted_Permutation. unfold iterkeys. now apply fmap_Permutation. }
  assert (Heq : CreateAccountHeader.to_binary enum
                  {| CreateAccountHeader.pubKey := pubKey;
                     CreateAccountHeader.timezone := timezone;
                     CreateAccountHeader.metadata := m1 |}
                = CreateAccountHeader.to_binary enum
                    {| CreateAccountHeader.pubKey := pubKey;
                       CreateAccountHeader.timezone := timezone;
                       CreateAccountHeader.metadata := m2 |}).
  { unfold CreateAccountHeader.to_binary.
    cbn [CreateAccountHeader.pubKey CreateAccountHeader.timezone
         CreateAccountHeader.metadata].
    unfold len. rewrite <- Hkeys, <- (Permutation_length Hperm).
    now rewrite (pack_items_Permutation m1 m2 _ _ Hwf Hperm). }
  split; [apply sorted_StronglySorted|]. split; [exact Hkeys|].
  split; [exact Heq|]. split.
  - rewrite Hkeys. unfold sorted. apply merge_sort_Permutation.
  - intros tz items Htz Htag Hkey Hzone Hcount Hitems.
    rewrite <- Heq, <- (Permutation_length Hperm).
    now apply (CreateAccountHeader_to_binary_sorted enum pubKey timezone m1
                 tz items).
Qed.

Lemma CreateAccountHeader_to_binary_insertion_order_witness :
  let pubKey := be_bytes 32 0x0102030405060708090a0b0c0d0e0f101112131415161718191a1b1c1d1e1f20 in
  CreateAccountHeader.to_binary sample_enum
    {| CreateAccountHeader.pubKey := pubKey;
       CreateAccountHeader.timezone := lit "UTC";
       CreateAccountHeader.metadata := [(lit "a", lit "1"); (lit "b", lit "2")] |}
  = CreateAccountHeader.to_binary sample_enum
      {| CreateAccountHeader.pubKey := pubKey;
         CreateAccountHeader.timezone := lit "UTC";
         CreateAccountHeader.metadata := [(lit "b", lit "2"); (lit "a", lit "1")] |}
  /\ CreateAccountHeader.to_binary sample_enum
       {| CreateAccountHeader.pubKey := pubKey;
          CreateAccountHeader.timezone := lit "UTC";
          CreateAccountHeader.metadata := [(lit "b", lit "2"); (lit "a", lit "1")] |}
     = Ok ([x03; xef] ++ [x00; x20] ++ pubKey
           ++ [x00; x03] ++ list_byte_of_string "UTC"
           ++ [x00; x02]
           ++ [x00; x01; x61; x00; x01; x31]
           ++ [x00; x01; x62; x00; x01; x32]).
Proof.
  intros pubKey.
  destruct (CreateAccountHeader_to_binary_insertion_order sample_enum pubKey
              (lit "UTC") [(lit "a", lit "1"); (lit "b", lit "2")]
              [(lit "b", lit "2"); (lit "a", lit "1")])
    as (_ & _ & Heq & _ & Hlayout).
  - unfold dict_wf. apply (bool_decide_unpack _). vm_compute. exact I.
  - apply Permutation_swap.
  - split; [exact Heq|].
    rewrite (Hlayout (list_byte_of_string "UTC")
               [[x00; x01; x61; x00; x01; x31];
                [x00; x01; x62; x00; x01; x32]]).
    + reflexivity.
    + reflexivity.
    + cbn. lia.
    + cbn. lia.
    + cbn. lia.
    + cbn. lia.
    + replace (sorted (iterkeys [(lit "a", lit "1"); (lit "b", lit "2")]))
        with [lit "a"; lit "b"] by (vm_compute; reflexivity).
      repeat constructor.
Defined.

(** The account-creation scenario: public key [01 02], time zone UTC and
    metadata inserted as [b] then [a]; the item [a] is written first. *)
Example CreateAccountHeader_to_binary_scenario :
  CreateAccountHeader.to_binary sample_enum
    {| CreateAccountHeader.pubKey := [x01; x02];
       CreateAccountHeader.timezone := lit "UTC";
       CreateAccountHeader.metadata := [(lit "b", lit "2"); (lit "a", lit "1")] |}
  = Ok ([x03; xef] ++ [x00; x02; x01; x02]
        ++ [x00; x03] ++ list_byte_of_string "UTC"
        ++ [x00; x02]
        ++ [x00; x01] ++ list_byte_of_string "a"
        ++ [x00; x01] ++ list_byte_of_string "1"
        ++ [x00; x01] ++ list_byte_of_string "b"
        ++ [x00; x01] ++ list_byte_of_string "2").
Proof. vm_compute. reflexivity. Qed.

(** Without metadata the count is still written, as zero. *)
Example CreateAccountHeader_to_binary_empty :
  CreateAccountHeader.to_binary sample_enum
    {| CreateAccountHeader.pubKey := [x01; x02];
       CreateAccountHeader.timezone := lit "UTC";
       CreateAccountHeader.metadata := [] |}
  = Ok ([x03; xef] ++ [x00; x02; x01; x02]
        ++ [x00; x03] ++ list_byte_of_string "UTC" ++ [x00; x00]).
Proof. vm_compute. reflexivity. Qed.

(** ** Further properties of the encoders *)

(** *** Packed integers read back *)

Lemma to_N_byte_of_Z (z : Z) : Z.of_N (Byte.to_N (byte_of_Z z)) = z mod 256.
Proof.
  unfold byte_of_Z.
  pose proof (Z.mod_pos_bound z 256 ltac:(lia)) as Hmod.
  destruct (Byte.of_N (Z.to_N (z mod 256))) as [b|] eqn:Hb; simpl.
  - apply Byte.to_of_N in Hb. rewrite Hb. lia.
  - apply Byte.of_N_None_iff in Hb. lia.
Qed.

Lemma be_decode_from (acc : Z) (n : nat) (z : Z) :
  fold_left (fun a b => a * 256 + Z.of_N (Byte.to_N b)) (be_bytes n z) acc
  = acc * 256 ^ Z.of_nat n + z mod 256 ^ Z.of_nat n.
Proof.
  revert acc. induction n as [|n IH]; intros acc.
  - cbn [be_bytes fold_left]. rewrite Z.mod_1_r. cbn. lia.
  - cbn [be_bytes fold_left]. rewrite IH, to_N_byte_of_Z.
    rewrite Nat2Z.inj_succ, Z.pow_succ_r by lia.
    assert (Hpos : 0 < 256 ^ Z.of_nat n) by (apply Z.pow_pos_nonneg; lia).
    rewrite (Z.mul_comm 256), (Z.rem_mul_r z _ 256) by lia.
    lia.
Qed.

Lemma be_decode_be_bytes (n : nat) (z : Z) :
  be_decode (be_bytes n z) = z mod 256 ^ Z.of_nat n.
Proof. unfold be_decode. rewrite be_decode_from. lia. Qed.

Lemma int64_of_be_bytes (z : Z) :
  - 2 ^ 63 <= z <= 2 ^ 63 - 1 -> int64_of_bytes (be_bytes 8 z) = z.
Proof.
  intros Hz. unfold int64_of_bytes. cbv zeta. rewrite be_decode_be_bytes.
  change (256 ^ Z.of_nat 8) with (2 ^ 64).
  destruct (Z.ltb_spec (z mod 2 ^ 64) (2 ^ 63)) as [Hlt|Hge].
  - destruct (Z.neg_nonneg_cases z) as [Hneg|Hpos].
    + assert (z mod 2 ^ 64 = z + 2 ^ 64); [|lia].
      symmetry. apply (Z.mod_unique z (2 ^ 64) (-1)); lia.
    + apply Z.mod_small. lia.
  - destruct (Z.neg_nonneg_cases z) as [Hneg|Hpos].
    + assert (z mod 2 ^ 64 = z + 2 ^ 64); [|lia].
      symmetry. apply (Z.mod_unique z (2 ^ 64) (-1)); lia.
    + rewrite Z.mod_small in Hge |- * by lia. lia.
Qed.

(** *** Outcomes of [struct.pack] *)

Lemma pack_int_returns (n : nat) (lo hi z : Z) :
  returns (pack_int n lo hi z) <-> lo <= z <= hi.
Proof.
  split.
  - intros [out Hout]. destruct (decide (lo <= z <= hi)) as [|Hn]; [done|].
    now rewrite (pack_int_raise _ _ _ _ Hn) in Hout.
  - intros Hz. rewrite (pack_int_ok _ _ _ _ Hz). now eexists.
Qed.

Lemma pack_int_inv (n : nat) (lo hi z : Z) (out : bytes) :
  pack_int n lo hi z = Ok out -> lo <= z <= hi /\ out = be_bytes n z.
Proof.
  intros Hout. assert (Hz : lo <= z <= hi).
  { apply (pack_int_returns n). now exists out. }
  rewrite (pack_int_ok _ _ _ _ Hz) in Hout. now injection Hout as <-.
Qed.

Lemma struct_pack_inv (f : fmt) (fs : list fmt) (v : pyval) (vs : list pyval)
    (out : bytes) :
  struct_pack (f :: fs) (v :: vs) = Ok out ->
  exists b rest,
    pack_one f v = Ok b /\ struct_pack fs vs = Ok rest /\ out = b ++ rest.
Proof.
  rewrite struct_pack_cons.
  destruct (pack_one f v) as [b|]; [|discriminate].
  destruct (struct_pack fs vs) as [rest|]; [|discriminate].
  rewrite !bind_Ok. intros [= <-]. now exists b, rest.
Qed.

Lemma struct_pack_raise (fs : list fmt) (vs : list pyval) (e : exn) :
  struct_pack fs vs = Raise e -> e = StructError.
Proof.
  revert vs. induction fs as [|f fs IH]; intros [|v vs];
    try (cbn [struct_pack]; congruence).
  rewrite struct_pack_cons.
  destruct (pack_one f v) as [b|e'] eqn:Hb.
  - rewrite bind_Ok. destruct (struct_pack fs vs) as [rest|e'] eqn:Hr.
    + now rewrite bind_Ok.
    + rewrite bind_Raise. intros [= <-]. now apply (IH vs).
  - rewrite bind_Raise. intros [= <-]. now apply pack_one_raise in Hb.
Qed.

Lemma length_pad32 (b : bytes) : length (pad32 b) = 32%nat.
Proof.
  unfold pad32. rewrite length_app, length_take, length_replicate. lia.
Qed.

Lemma pad32_exact (b : bytes) : length b = 32%nat -> pad32 b = b.
Proof.
  intros Hb. unfold pad32. rewrite <- Hb, firstn_all, Nat.sub_diag.
  cbn [replicate]. now rewrite app_nil_r.
Qed.

(** Case analysis on a chain of binds that returned. *)
Ltac bind_cases H :=
  cbv zeta in H;
  repeat match type of H with
         | (?m ≫= _) = Ok _ =>
             let E := fresh "E" in
             destruct m eqn:E;
             [rewrite bind_Ok in H | rewrite bind_Raise in H; discriminate H]
         end.

(** *** Values *)

Lemma VMsg_to_binary_code_points_witness :
  VMsg.to_binary sample_enum {| VMsg.contents := [233%N; 33%N] |}
  = Ok ([x07] ++ [x00; x02] ++ [xc3; xa9]).
Proof.
  apply (VMsg_to_binary_code_points sample_enum
           {| VMsg.contents := [233%N; 33%N] |} [xc3; xa9; x21]).
  - cbn. lia.
  - reflexivity.
  - cbn. lia.
Defined.

(** X2. A text of more than 65535 code points is refused by the length
    code [H], whatever it contains, as long as it can be encoded. *)
Theorem VMsg_to_binary_too_long (enum : enum_module) (self : VMsg.t) :
  returns (encode (VMsg.contents self)) ->
  65535 < Z.of_nat (length (VMsg.contents self)) ->
  VMsg.to_binary enum self = Raise StructError.
Proof.
  intros [enc Henc] Hlen. unfold VMsg.to_binary. rewrite Henc, bind_Ok.
  apply (struct_pack_refuses _ _ 1 FH (len (VMsg.contents self)));
    [reflexivity | reflexivity |].
  cbn [pack_one len]. apply pack_int_raise. lia.
Qed.

Lemma VMsg_to_binary_too_long_witness :
  VMsg.to_binary sample_enum
    {| VMsg.contents := replicate (Z.to_nat 65536) 97%N |}
  = Raise StructError.
Proof.
  apply VMsg_to_binary_too_long; cbn [VMsg.contents].
  - rewrite encode_ascii; [now eexists|].
    apply Forall_replicate. reflexivity.
  - rewrite length_replicate. lia.
Defined.

Lemma VDateTime_to_binary_tzinfo_not_int_witness :
  VDateTime.to_binary sample_enum
    {| VDateTime.contents :=
         {| VDateTime.year := 2024; VDateTime.month := 2;
            VDateTime.day := 29; VDateTime.hour := 12;
            VDateTime.minute := 30; VDateTime.second := 0;
            VDateTime.tzinfo := PyObj "timezone" |} |}
  = Raise StructError.
Proof.
  apply (VDateTime_to_binary_tzinfo_not_int sample_enum _ 3).
  - reflexivity.
  - intros z. discriminate.
Defined.

(** X4. An integer is written on nine bytes and can be read back from the
    last eight; the encoder returns only for a 64-bit signed integer. *)
Theorem VInt_to_binary_round_trip
    (enum : enum_rest) (self : VInt.t) (out : bytes) :
  VInt.to_binary enum self = Ok out ->
  length out = 9%nat
  /\ - 2 ^ 63 <= VInt.contents self <= 2 ^ 63 - 1
  /\ int64_of_bytes (drop 1 out) = VInt.contents self.
Proof.
  unfold VInt.to_binary. intros Hout.
  pose proof (length_struct_pack _ _ _ Hout) as Hlen.
  apply struct_pack_inv in Hout as (tag & rest & Htag & Hrest & ->).
  apply struct_pack_inv in Hrest as (b & rest' & Hb & Hnil & ->).
  cbn [struct_pack] in Hnil. injection Hnil as <-.
  cbn [pack_one] in Htag, Hb.
  apply pack_int_inv in Htag as [_ ->]. apply pack_int_inv in Hb as [Hz ->].
  split; [exact Hlen|]. split; [exact Hz|].
  rewrite app_nil_r. cbn [be_bytes app drop].
  now apply int64_of_be_bytes.
Qed.

Lemma VInt_to_binary_round_trip_witness :
  int64_of_bytes
    (drop 1 [x00; xff; xff; xff; xff; xff; xff; xff; xfb]) = -5.
Proof.
  apply (VInt_to_binary_round_trip sample_enum_rest {| VInt.contents := -5 |}).
  reflexivity.
Defined.

(** X5. An integer outside 64 signed bits is refused at encoding. *)
Theorem VInt_to_binary_out_of_range (enum : enum_rest) (self : VInt.t) :
  ~ - 2 ^ 63 <= VInt.contents self <= 2 ^ 63 - 1 ->
  VInt.to_binary enum self = Raise StructError.
Proof.
  intros Hz. unfold VInt.to_binary.
  apply (struct_pack_refuses _ _ 1 Fq (PyInt (VInt.contents self)));
    [reflexivity | reflexivity |].
  cbn [pack_one]. now apply pack_int_raise.
Qed.

Lemma VInt_to_binary_out_of_range_witness :
  VInt.to_binary sample_enum_rest {| VInt.contents := 2 ^ 63 |}
  = Raise StructError.
Proof.
  apply VInt_to_binary_out_of_range. cbn [VInt.contents]. lia.
Defined.

(** X6. Every value is written on a number of bytes fixed by its class (and,
    for a message, by its number of code points). *)
Theorem value_to_binary_length
    (enum : enum_module) (enum' : enum_rest) (b58decode : str -> result bytes)
    (v : value) (out : bytes) :
  value_to_binary enum enum' b58decode v = Ok out ->
  length out = value_size v.
Proof.
  destruct v as [v|v|v|v|v|v| |v|v| ]; cbn [value_to_binary value_size];
    unfold VInt.to_binary, VAddress.to_binary, VAccount.to_binary,
      VAsset.to_binary, VContract.to_binary, VMsg.to_binary,
      VVoid.to_binary, VDateTime.to_binary, VTimeDelta.to_binary,
      VUndefined.to_binary;
    intros Hout; bind_cases Hout;
    apply length_struct_pack in Hout; cbn [calcsize foldr] in Hout;
    rewrite Hout; lia.
Qed.

Lemma value_to_binary_length_witness :
  exists out,
    value_to_binary sample_enum sample_enum_rest base58_b58decode
      (Address {| VAddress.contents := addr_ff |}) = Ok out
    /\ length out = 33%nat.
Proof.
  eexists. split; [vm_compute; reflexivity|].
  apply (value_to_binary_length sample_enum sample_enum_rest base58_b58decode
           (Address {| VAddress.contents := addr_ff |})).
  vm_compute. reflexivity.
Defined.

(** X7. On a [datetime.timedelta] the encoder raises [AttributeError]: the
    object has days, seconds and microseconds, and no [year]. *)
Theorem VTimeDelta_to_binary_timedelta
    (enum : enum_rest) (days seconds microseconds : Z) :
  VTimeDelta.to_binary enum
    {| VTimeDelta.contents := timedelta days seconds microseconds |}
  = Raise (AttributeError "year").
Proof. reflexivity. Qed.

(** X8. On an object with the calendar attributes of a [datetime] the
    encoder writes the tag and seven 8-byte fields, the last one being
    the microseconds times 1000: 57 bytes. *)
Theorem VTimeDelta_to_binary_layout
    (enum : enum_rest) (self : VTimeDelta.t)
    (year month day hour minute second microsecond : Z) :
  VTimeDelta.contents self !! "year" = Some (PyInt year) ->
  VTimeDelta.contents self !! "month" = Some (PyInt month) ->
  VTimeDelta.contents self !! "day" = Some (PyInt day) ->
  VTimeDelta.contents self !! "hour" = Some (PyInt hour) ->
  VTimeDelta.contents self !! "minute" = Some (PyInt minute) ->
  VTimeDelta.contents self !! "second" = Some (PyInt second) ->
  VTimeDelta.contents self !! "microsecond" = Some (PyInt microsecond) ->
  -128 <= VTypeTimeDelta enum <= 127 ->
  Forall (fun z => 0 <= z <= 2 ^ 64 - 1)
    [year; month; day; hour; minute; second; microsecond * 1000] ->
  let out :=
    be_bytes 1 (VTypeTimeDelta enum)
    ++ be_bytes 8 year ++ be_bytes 8 month ++ be_bytes 8 day
    ++ be_bytes 8 hour ++ be_bytes 8 minute ++ be_bytes 8 second
    ++ be_bytes 8 (microsecond * 1000) in
  VTimeDelta.to_binary enum self = Ok out /\ length out = 57%nat.
Proof.
  intros Hy Hmo Hd Hh Hmi Hs Hus Htag Hrange out.
  repeat (apply Forall_cons in Hrange as [? Hrange]).
  split.
  - unfold VTimeDelta.to_binary, getattr.
    rewrite Hy, Hmo, Hd, Hh, Hmi, Hs, Hus.
    cbn [mbind result_bind py_mul].
    rewrite !struct_pack_cons. cbn [pack_one struct_pack].
    rewrite (pack_int_ok 1) by exact Htag.
    rewrite !(pack_int_ok 8) by assumption.
    rewrite !bind_Ok. unfold out. now rewrite !app_nil_r.
  - unfold out. rewrite !length_app, !length_be_bytes. reflexivity.
Qed.

Lemma VTimeDelta_to_binary_layout_witness :
  exists out,
    VTimeDelta.to_binary sample_enum_rest
      {| VTimeDelta.contents := datetime_fields 2024 1 1 0 0 0 7 |} = Ok out
    /\ length out = 57%nat
    /\ be_decode (drop 49 out) = 7000.
Proof.
  eexists. split; [|split].
  - apply (VTimeDelta_to_binary_layout sample_enum_rest
             {| VTimeDelta.contents := datetime_fields 2024 1 1 0 0 0 7 |}
             2024 1 1 0 0 0 7); try reflexivity.
    + cbn. lia.
    + repeat constructor; lia.
  - reflexivity.
  - reflexivity.
Defined.

(** *** Headers of fixed width *)

(** X9. Whatever their fields, the fixed-width headers are written on 74
    (Transfer), 42 (Circulate) and 34 (RevokeAccount, RevokeAsset,
    SyncLocal) bytes: an address field is 32 bytes wide whatever the
    length of the decoded address. *)
Theorem fixed_width_headers_length
    (enum : enum_module) (enum' : enum_rest)
    (b58decode : str -> result bytes) :
  (forall self out,
     TransferAssetHeader.to_binary enum b58decode self = Ok out ->
     length out = 74%nat)
  /\ (forall self out,
        CirculateAssetHeader.to_binary enum' b58decode self = Ok out ->
        length out = 42%nat)
  /\ (forall self out,
        RevokeAccountHeader.to_binary enum' b58decode self = Ok out ->
        length out = 34%nat)
  /\ (forall self out,
        RevokeAssetHeader.to_binary enum' b58decode self = Ok out ->
        length out = 34%nat)
  /\ (forall self out,
        SyncHeader.to_binary enum' self = Ok out -> length out = 34%nat).
Proof.
  unfold TransferAssetHeader.to_binary, CirculateAssetHeader.to_binary,
    RevokeAccountHeader.to_binary, RevokeAssetHeader.to_binary,
    SyncHeader.to_binary.
  repeat split; intros self out Hout; bind_cases Hout;
    apply length_struct_pack in Hout; exact Hout.
Qed.

Lemma fixed_width_headers_length_witness :
  exists out,
    CirculateAssetHeader.to_binary sample_enum_rest base58_b58decode
      {| CirculateAssetHeader.assetAddr := lit "2NEpo7TZRRrLZSi2U";
         CirculateAssetHeader.amount := 10 |} = Ok out
    /\ length out = 42%nat.
Proof.
  eexists. split; [vm_compute; reflexivity|].
  destruct (fixed_width_headers_length sample_enum sample_enum_rest
              base58_b58decode) as (_ & Hcirculate & _).
  apply (Hcirculate
           {| CirculateAssetHeader.assetAddr := lit "2NEpo7TZRRrLZSi2U";
              CirculateAssetHeader.amount := 10 |}).
  vm_compute. reflexivity.
Defined.

Lemma struct_pack_H32s (tag : Z) (b : bytes) (fs : list fmt) (vs : list pyval) :
  0 <= tag <= 65535 ->
  struct_pack (FH :: Fs 32 :: fs) (PyInt tag :: PyBytes b :: vs)
  = (rest ← struct_pack fs vs; Ok (be_bytes 2 tag ++ pad32 b ++ rest)).
Proof.
  intros Htag. rewrite !struct_pack_cons. cbn [pack_one].
  rewrite (pack_int_ok 2) by exact Htag. rewrite !bind_Ok.
  destruct (struct_pack fs vs); reflexivity.
Qed.

Lemma be_decode_tag (tag : Z) :
  0 <= tag <= 65535 -> be_decode (be_bytes 2 tag) = tag.
Proof.
  intros Htag. rewrite be_decode_be_bytes.
  change (256 ^ Z.of_nat 2) with 65536. apply Z.mod_small. lia.
Qed.

(** X10. The fields of a Transfer header can be read back from its bytes:
    with addresses that decode to 32 bytes, the kind tag is in the
    first two bytes, the two decoded addresses follow, and the last
    eight bytes are the balance in two's complement. *)
Theorem TransferAssetHeader_to_binary_round_trip
    (enum : enum_module) (b58decode : str -> result bytes)
    (self : TransferAssetHeader.t) (asset to out : bytes) :
  b58decode (TransferAssetHeader.assetAddr self) = Ok asset ->
  b58decode (TransferAssetHeader.toAddr self) = Ok to ->
  length asset = 32%nat -> length to = 32%nat ->
  TransferAssetHeader.to_binary enum b58decode self = Ok out ->
  be_decode (take 2 out) = TxTypeTransfer enum
  /\ take 32 (drop 2 out) = asset
  /\ take 32 (drop 34 out) = to
  /\ int64_of_bytes (drop 66 out) = TransferAssetHeader.balance self.
Proof.
  intros Hasset Hto Hla Hlt. unfold TransferAssetHeader.to_binary.
  rewrite Hasset, Hto, !bind_Ok. intros Hout.
  apply struct_pack_inv in Hout as (tag & r1 & Htag & Hr1 & ->).
  apply struct_pack_inv in Hr1 as (a & r2 & Ha & Hr2 & ->).
  apply struct_pack_inv in Hr2 as (t & r3 & Ht & Hr3 & ->).
  apply struct_pack_inv in Hr3 as (b & r4 & Hb & Hr4 & ->).
  cbn [struct_pack] in Hr4. injection Hr4 as <-.
  cbn [pack_one] in Htag, Ha, Ht, Hb.
  apply pack_int_inv in Htag as [Htag ->].
  apply pack_int_inv in Hb as [Hbal ->].
  injection Ha as <-. injection Ht as <-.
  fold (pad32 asset). fold (pad32 to).
  rewrite (pad32_exact asset Hla), (pad32_exact to Hlt), app_nil_r.
  repeat split.
  - rewrite take_app_length' by now rewrite length_be_bytes.
    now apply be_decode_tag.
  - rewrite drop_app_length' by now rewrite length_be_bytes.
    now rewrite take_app_length'.
  - rewrite (app_assoc (be_bytes 2 _)).
    rewrite drop_app_length'
      by (rewrite length_app, length_be_bytes; lia).
    now rewrite take_app_length'.
  - rewrite (app_assoc (be_bytes 2 _)), (app_assoc (_ ++ asset)).
    rewrite drop_app_length'
      by (rewrite !length_app, length_be_bytes; lia).
    now apply int64_of_be_bytes.
Qed.

Lemma TransferAssetHeader_to_binary_round_trip_witness :
  exists out,
    TransferAssetHeader.to_binary sample_enum base58_b58decode
      {| TransferAssetHeader.assetAddr := addr_zero;
         TransferAssetHeader.toAddr := addr_ff;
         TransferAssetHeader.balance := -5 |} = Ok out
    /\ take 32 (drop 34 out) = replicate 32 xff
    /\ int64_of_bytes (drop 66 out) = -5.
Proof.
  eexists. split; [vm_compute; reflexivity|].
  destruct (TransferAssetHeader_to_binary_round_trip sample_enum
              base58_b58decode
              {| TransferAssetHeader.assetAddr := addr_zero;
                 TransferAssetHeader.toAddr := addr_ff;
                 TransferAssetHeader.balance := -5 |}
              (replicate 32 x00) (replicate 32 xff) _
              ltac:(vm_compute; reflexivity) ltac:(vm_compute; reflexivity)
              eq_refl eq_refl ltac:(vm_compute; reflexivity))
    as (_ & _ & Hto & Hbalance).
  split; [exact Hto | exact Hbalance].
Defined.

(** X11. A Transfer header is encoded exactly when both addresses decode,
    the tag fits two bytes and the balance fits 64 signed bits. *)
Theorem TransferAssetHeader_to_binary_returns_iff
    (enum : enum_module) (b58decode : str -> result bytes)
    (self : TransferAssetHeader.t) :
  returns (TransferAssetHeader.to_binary enum b58decode self) <->
  returns (b58decode (TransferAssetHeader.assetAddr self))
  /\ returns (b58decode (TransferAssetHeader.toAddr self))
  /\ 0 <= TxTypeTransfer enum <= 65535
  /\ - 2 ^ 63 <= TransferAssetHeader.balance self <= 2 ^ 63 - 1.
Proof.
  unfold TransferAssetHeader.to_binary. split.
  - intros [out Hout]. bind_cases Hout.
    apply struct_pack_inv in Hout as (ptag & r1 & Htag & Hr1 & ->).
    apply struct_pack_inv in Hr1 as (pa & r2 & _ & Hr2 & ->).
    apply struct_pack_inv in Hr2 as (pt & r3 & _ & Hr3 & ->).
    apply struct_pack_inv in Hr3 as (pb & r4 & Hb & _ & ->).
    cbn [pack_one] in Htag, Hb.
    apply pack_int_inv in Htag as [Htag _].
    apply pack_int_inv in Hb as [Hbal _].
    repeat split; try (now eexists); lia.
  - intros ([asset Hasset] & [to Hto] & Htag & Hbal).
    rewrite Hasset, Hto, !bind_Ok, !struct_pack_cons. cbn [pack_one].
    rewrite (pack_int_ok 2) by exact Htag. rewrite (pack_int_ok 8) by exact Hbal.
    now eexists.
Qed.

Lemma TransferAssetHeader_to_binary_returns_iff_witness :
  ~ returns (TransferAssetHeader.to_binary sample_enum base58_b58decode
               {| TransferAssetHeader.assetAddr := addr_zero;
                  TransferAssetHeader.toAddr := addr_ff;
                  TransferAssetHeader.balance := 2 ^ 63 |}).
Proof.
  intros Hret.
  apply TransferAssetHeader_to_binary_returns_iff in Hret
    as (_ & _ & _ & Hbal).
  cbn [TransferAssetHeader.balance] in Hbal. lia.
Defined.

(** X12. An address is never refused for its length: whenever the
    address decodes and the tag fits two bytes, [to_binary] returns the
    tag followed by the decoded bytes cut or padded to 32; of a decoding
    longer than 32 bytes only the first 32 are written. *)
Theorem RevokeAccountHeader_to_binary_truncates
    (enum : enum_rest) (b58decode : str -> result bytes)
    (self : RevokeAccountHeader.t) (b : bytes) :
  b58decode (RevokeAccountHeader.address self) = Ok b ->
  0 <= TxTypeRevokeAccount enum <= 65535 ->
  RevokeAccountHeader.to_binary enum b58decode self
  = Ok (be_bytes 2 (TxTypeRevokeAccount enum) ++ pad32 b)
  /\ ((32 <= length b)%nat -> pad32 b = take 32 b).
Proof.
  intros Hb Htag. split.
  - unfold RevokeAccountHeader.to_binary.
    rewrite Hb, bind_Ok, struct_pack_H32s by exact Htag.
    cbn [struct_pack]. now rewrite bind_Ok, app_nil_r.
  - intros Hlen. unfold pad32.
    replace (32 - length b)%nat with O by lia.
    cbn [replicate]. now rewrite app_nil_r.
Qed.

Lemma RevokeAccountHeader_to_binary_truncates_witness :
  RevokeAccountHeader.to_binary sample_enum_rest base58_b58decode
    {| RevokeAccountHeader.address :=
         lit "111111111111111111111111111111112" |}
  = Ok (be_bytes 2 (TxTypeRevokeAccount sample_enum_rest)
        ++ replicate 32 x00).
Proof.
  destruct (RevokeAccountHeader_to_binary_truncates sample_enum_rest
              base58_b58decode
              {| RevokeAccountHeader.address :=
                   lit "111111111111111111111111111111112" |}
              (replicate 32 x00 ++ [x01])) as [Hbin Hcut].
  - vm_compute. reflexivity.
  - cbn. lia.
  - rewrite Hbin, Hcut by (cbn; lia). reflexivity.
Defined.

(** *** CreateContract *)

(** X13. The script is prefixed with its number of code points on two bytes
    and written on as many bytes. *)
Theorem CreateContractHeader_to_binary_layout
    (enum : enum_rest) (b58decode : str -> result bytes)
    (self : CreateContractHeader.t) (address script_enc : bytes) :
  b58decode (CreateContractHeader.address self) = Ok address ->
  encode (CreateContractHeader.script self) = Ok script_enc ->
  0 <= TxTypeCreateContract enum <= 65535 ->
  Z.of_nat (length (CreateContractHeader.script self)) <= 65535 ->
  CreateContractHeader.to_binary enum b58decode self
  = Ok (be_bytes 2 (TxTypeCreateContract enum) ++ pad32 address
        ++ be_bytes 2 (Z.of_nat (length (CreateContractHeader.script self)))
        ++ take (length (CreateContractHeader.script self)) script_enc).
Proof.
  intros Haddr Henc Htag Hlen. unfold CreateContractHeader.to_binary.
  rewrite Haddr, Henc, !bind_Ok, struct_pack_H32s by exact Htag.
  rewrite !struct_pack_cons, (pack_s_encoded _ _ Henc).
  cbn [pack_one len struct_pack]. rewrite (pack_int_ok 2) by lia.
  rewrite !bind_Ok. now rewrite app_nil_r.
Qed.

Lemma CreateContractHeader_to_binary_layout_witness :
  CreateContractHeader.to_binary sample_enum_rest base58_b58decode
    {| CreateContractHeader.script := lit "ok";
       CreateContractHeader.owner := addr_zero;
       CreateContractHeader.address := addr_ff;
       CreateContractHeader.timestamp := PyInt 0 |}
  = Ok ([x03; xe8] ++ replicate 32 xff ++ [x00; x02]
        ++ list_byte_of_string "ok").
Proof.
  apply (CreateContractHeader_to_binary_layout sample_enum_rest
           base58_b58decode
           {| CreateContractHeader.script := lit "ok";
              CreateContractHeader.owner := addr_zero;
              CreateContractHeader.address := addr_ff;
              CreateContractHeader.timestamp := PyInt 0 |}
           (replicate 32 xff) (list_byte_of_string "ok")).
  - vm_compute. reflexivity.
  - reflexivity.
  - cbn. lia.
  - cbn. lia.
Defined.

(** X14. A script of more than 65535 code points cannot be encoded: its
    length does not fit the two-byte prefix. *)
Theorem CreateContractHeader_to_binary_too_long
    (enum : enum_rest) (b58decode : str -> result bytes)
    (self : CreateContractHeader.t) :
  returns (b58decode (CreateContractHeader.address self)) ->
  returns (encode (CreateContractHeader.script self)) ->
  65535 < Z.of_nat (length (CreateContractHeader.script self)) ->
  CreateContractHeader.to_binary enum b58decode self = Raise StructError.
Proof.
  intros [address Haddr] [enc Henc] Hlen.
  unfold CreateContractHeader.to_binary. rewrite Haddr, Henc, !bind_Ok.
  apply (struct_pack_refuses _ _ 2 FH
           (len (CreateContractHeader.script self)));
    [reflexivity | reflexivity |].
  cbn [pack_one len]. apply pack_int_raise. lia.
Qed.

Lemma CreateContractHeader_to_binary_too_long_witness :
  CreateContractHeader.to_binary sample_enum_rest base58_b58decode
    {| CreateContractHeader.script := replicate (Z.to_nat 65536) 32%N;
       CreateContractHeader.owner := addr_zero;
       CreateContractHeader.address := addr_ff;
       CreateContractHeader.timestamp := PyInt 0 |}
  = Raise StructError.
Proof.
  apply CreateContractHeader_to_binary_too_long;
    cbn [CreateContractHeader.address CreateContractHeader.script].
  - eexists. vm_compute. reflexivity.
  - rewrite encode_ascii; [now eexists|].
    apply Forall_replicate. reflexivity.
  - rewrite length_replicate. lia.
Defined.

(** *** Call *)

Lemma to_binary_each_Forall2 {A : Type} `{Serializable A}
    (args : list A) (each : list bytes) :
  Forall2 (fun arg b => to_binary arg = Ok b) args each ->
  CallHeader.to_binary_each args = Ok each.
Proof.
  induction 1 as [|arg b args each Hb _ IH]; [reflexivity|].
  cbn [CallHeader.to_binary_each]. now rewrite Hb, IH.
Qed.

(** X15. A Call header is the kind tag, the 32 address bytes, the number of
    code points of the method name on eight bytes and the name, the
    number of arguments on eight bytes, and the encodings of the
    arguments one after the other, in order. *)
Theorem CallHeader_to_binary_layout {A : Type} `{Serializable A}
    (enum : enum_rest) (b58decode : str -> result bytes)
    (self : CallHeader.t A) (each : list bytes) (addr method_enc : bytes) :
  Forall2 (fun arg b => to_binary arg = Ok b) (CallHeader.args self) each ->
  b58decode (CallHeader.address self) = Ok addr ->
  encode (CallHeader.method self) = Ok method_enc ->
  0 <= TxTypeCall enum <= 65535 ->
  Z.of_nat (length (CallHeader.method self)) <= 2 ^ 64 - 1 ->
  Z.of_nat (length (CallHeader.args self)) <= 2 ^ 64 - 1 ->
  CallHeader.to_binary enum b58decode self
  = Ok (be_bytes 2 (TxTypeCall enum) ++ pad32 addr
        ++ be_bytes 8 (Z.of_nat (length (CallHeader.method self)))
        ++ take (length (CallHeader.method self)) method_enc
        ++ be_bytes 8 (Z.of_nat (length (CallHeader.args self)))
        ++ mjoin each).
Proof.
  intros Hargs Haddr Henc Htag Hmethod Hcount.
  unfold CallHeader.to_binary.
  rewrite (to_binary_each_Forall2 _ _ Hargs), bind_Ok. cbv zeta.
  rewrite Haddr, Henc, !bind_Ok, struct_pack_H32s by exact Htag.
  rewrite (struct_pack_cons FQ), (struct_pack_cons (Fs _)),
    (struct_pack_cons FQ), struct_pack_s_last, (pack_s_encoded _ _ Henc).
  cbn [pack_one len]. rewrite !(pack_int_ok 8) by lia.
  reflexivity.
Qed.

Lemma CallHeader_to_binary_layout_witness :
  CallHeader.to_binary sample_enum_rest base58_b58decode
    {| CallHeader.address := addr_zero; CallHeader.method := lit "f";
       CallHeader.args := [Int {| VInt.contents := 1 |}; Void] |}
  = Ok ([x03; xea] ++ replicate 32 x00
        ++ [x00; x00; x00; x00; x00; x00; x00; x01] ++ list_byte_of_string "f"
        ++ [x00; x00; x00; x00; x00; x00; x00; x02]
        ++ ([x00; x00; x00; x00; x00; x00; x00; x00; x01] ++ [x08])).
Proof.
  apply (CallHeader_to_binary_layout sample_enum_rest base58_b58decode
           {| CallHeader.address := addr_zero; CallHeader.method := lit "f";
              CallHeader.args := [Int {| VInt.contents := 1 |}; Void] |}
           [[x00; x00; x00; x00; x00; x00; x00; x00; x01]; [x08]]
           (replicate 32 x00) (list_byte_of_string "f")).
  - repeat constructor.
  - vm_compute. reflexivity.
  - reflexivity.
  - cbn. lia.
  - cbn. lia.
  - cbn. lia.
Defined.

(** X16. The arguments are encoded first, in order: the exception of the
    first argument that cannot be encoded is the exception of the
    header, whatever the address and the method name. *)
Theorem CallHeader_to_binary_argument_raises {A : Type} `{Serializable A}
    (enum : enum_rest) (b58decode : str -> result bytes)
    (self : CallHeader.t A) (before after : list A) (arg : A) (e : exn) :
  CallHeader.args self = before ++ arg :: after ->
  Forall (fun a => returns (to_binary a)) before ->
  to_binary arg = Raise e ->
  CallHeader.to_binary enum b58decode self = Raise e.
Proof.
  intros Hargs Hbefore Harg. unfold CallHeader.to_binary. rewrite Hargs.
  assert (Heach : CallHeader.to_binary_each (before ++ arg :: after)
                  = Raise e).
  { clear Hargs. induction Hbefore as [|a before [b Hb] _ IH].
    - cbn [app CallHeader.to_binary_each]. now rewrite Harg.
    - cbn [app CallHeader.to_binary_each]. now rewrite Hb, bind_Ok, IH. }
  now rewrite Heach.
Qed.

Lemma CallHeader_to_binary_argument_raises_witness :
  CallHeader.to_binary sample_enum_rest base58_b58decode
    {| CallHeader.address := lit "not base58 (0OIl)";
       CallHeader.method := lit "f";
       CallHeader.args :=
         [Void; TimeDelta {| VTimeDelta.contents := timedelta 1 0 0 |};
          Int {| VInt.contents := 2 ^ 64 |}] |}
  = Raise (AttributeError "year").
Proof.
  apply (CallHeader_to_binary_argument_raises sample_enum_rest
           base58_b58decode
           {| CallHeader.address := lit "not base58 (0OIl)";
              CallHeader.method := lit "f";
              CallHeader.args :=
                [Void; TimeDelta {| VTimeDelta.contents := timedelta 1 0 0 |};
                 Int {| VInt.contents := 2 ^ 64 |}] |}
           [Void]
           [Int {| VInt.contents := 2 ^ 64 |}]
           (TimeDelta {| VTimeDelta.contents := timedelta 1 0 0 |})).
  - reflexivity.
  - repeat constructor. now eexists.
  - reflexivity.
Defined.

(** *** SyncLocal *)

(** X17. The contract is packed as it is given, with no base58
    decoding: a [bytes] object is written after the tag, cut or padded to
    32 bytes; an address given as text, as the other headers take it,
    is refused by the code [32s]. *)
Theorem SyncHeader_to_binary_contract
    (enum : enum_rest) (self : SyncHeader.t) :
  (forall b, SyncHeader.contract self = PyBytes b ->
     0 <= TxTypeSyncLocal enum <= 65535 ->
     SyncHeader.to_binary enum self
     = Ok (be_bytes 2 (TxTypeSyncLocal enum) ++ pad32 b))
  /\ (forall s, SyncHeader.contract self = PyStr s ->
      SyncHeader.to_binary enum self = Raise StructError).
Proof.
  unfold SyncHeader.to_binary. split.
  - intros b -> Htag. rewrite struct_pack_H32s by exact Htag.
    cbn [struct_pack]. now rewrite bind_Ok, app_nil_r.
  - intros s ->.
    apply (struct_pack_refuses _ _ 1 (Fs 32) (PyStr s)); reflexivity.
Qed.

Lemma SyncHeader_to_binary_contract_witness :
  SyncHeader.to_binary sample_enum_rest
    {| SyncHeader.contract := PyBytes (replicate 33 xff) |}
  = Ok (be_bytes 2 (TxTypeSyncLocal sample_enum_rest) ++ replicate 32 xff)
  /\ SyncHeader.to_binary sample_enum_rest
       {| SyncHeader.contract := PyStr addr_zero |}
     = Raise StructError.
Proof.
  split.
  - rewrite (proj1 (SyncHeader_to_binary_contract sample_enum_rest
                      {| SyncHeader.contract := PyBytes (replicate 33 xff) |})
               (replicate 33 xff) eq_refl) by (cbn; lia).
    reflexivity.
  - apply (proj2 (SyncHeader_to_binary_contract sample_enum_rest
                    {| SyncHeader.contract := PyStr addr_zero |})
             addr_zero eq_refl).
Defined.

(** *** CreateAccount, both branches *)

(** X18. With or without metadata the header has one layout: kind tag,
    length-prefixed public key, length-prefixed time zone, the number of
    metadata items on two bytes, and the packed items in ascending key
    order.  Without metadata the count is zero and nothing follows. *)
Theorem CreateAccountHeader_to_binary_layout
    (enum : enum_module) (self : CreateAccountHeader.t)
    (tz : bytes) (items : list bytes) :
  encode (CreateAccountHeader.timezone self) = Ok tz ->
  0 <= TxTypeCreateAccount enum <= 65535 ->
  Z.of_nat (length (CreateAccountHeader.pubKey self)) <= 65535 ->
  Z.of_nat (length (CreateAccountHeader.timezone self)) <= 65535 ->
  Z.of_nat (length (CreateAccountHeader.metadata self)) <= 65535 ->
  Forall2
    (fun key item =>
       CreateAccountHeader.pack_item (CreateAccountHeader.metadata self) key
       = Ok item)
    (sorted (iterkeys (CreateAccountHeader.metadata self))) items ->
  CreateAccountHeader.to_binary enum self
  = Ok (be_bytes 2 (TxTypeCreateAccount enum)
        ++ be_bytes 2 (Z.of_nat (length (CreateAccountHeader.pubKey self)))
        ++ CreateAccountHeader.pubKey self
        ++ be_bytes 2 (Z.of_nat (length (CreateAccountHeader.timezone self)))
        ++ take (length (CreateAccountHeader.timezone self)) tz
        ++ be_bytes 2 (Z.of_nat (length (CreateAccountHeader.metadata self)))
        ++ mjoin items).
Proof.
  intros Htz Htag Hkey Hzone Hcount Hitems.
  unfold CreateAccountHeader.to_binary. cbv zeta.
  destruct (CreateAccountHeader.metadata self) as [|item0 metadata] eqn:Hmeta.
  - apply Forall2_nil_inv_l in Hitems as ->.
    cbn [length Nat.ltb Nat.leb]. rewrite Htz, bind_Ok.
    rewrite !struct_pack_cons, pack_s_exact, (pack_s_encoded _ _ Htz).
    cbn [pack_one len struct_pack mjoin list_join length].
    rewrite !(pack_int_ok 2) by lia. rewrite !bind_Ok.
    now rewrite !app_nil_r.
  - change (0 <? length (item0 :: metadata))%nat with true. cbv iota.
    rewrite Htz, bind_Ok.
    rewrite !struct_pack_cons, pack_s_exact, (pack_s_encoded _ _ Htz).
    cbn [pack_one len struct_pack].
    rewrite !(pack_int_ok 2) by lia. rewrite !bind_Ok.
    rewrite (pack_items_Forall2 _ _ _ _ Hitems), bind_Ok.
    cbn [app]. now rewrite !app_nil_r, <- !app_assoc.
Qed.

Lemma CreateAccountHeader_to_binary_layout_witness :
  CreateAccountHeader.to_binary sample_enum
    {| CreateAccountHeader.pubKey := [x01; x02];
       CreateAccountHeader.timezone := lit "UTC";
       CreateAccountHeader.metadata := [(lit "b", lit "2"); (lit "a", lit "1")] |}
  = Ok ([x03; xef] ++ [x00; x02] ++ [x01; x02]
        ++ [x00; x03] ++ list_byte_of_string "UTC"
        ++ [x00; x02]
        ++ mjoin [[x00; x01; x61; x00; x01; x31];
                  [x00; x01; x62; x00; x01; x32]]).
Proof.
  apply (CreateAccountHeader_to_binary_layout sample_enum
           {| CreateAccountHeader.pubKey := [x01; x02];
              CreateAccountHeader.timezone := lit "UTC";
              CreateAccountHeader.metadata :=
                [(lit "b", lit "2"); (lit "a", lit "1")] |}
           (list_byte_of_string "UTC")).
  - reflexivity.
  - cbn. lia.
  - cbn. lia.
  - cbn. lia.
  - cbn. lia.
  - cbn [CreateAccountHeader.metadata].
    replace (sorted (iterkeys [(lit "b", lit "2"); (lit "a", lit "1")]))
      with [lit "a"; lit "b"] by (vm_compute; reflexivity).
    repeat constructor.
Defined.

(** X19. More than 65535 metadata items cannot be encoded: the count does
    not fit its two bytes, and the header is refused before any item is
    packed. *)
Theorem CreateAccountHeader_to_binary_too_many
    (enum : enum_module) (self : CreateAccountHeader.t) :
  returns (encode (CreateAccountHeader.timezone self)) ->
  65535 < Z.of_nat (length (CreateAccountHeader.metadata self)) ->
  CreateAccountHeader.to_binary enum self = Raise StructError.
Proof.
  intros [tz Htz] Hcount. unfold CreateAccountHeader.to_binary. cbv zeta.
  destruct (Nat.ltb_spec 0 (length (CreateAccountHeader.metadata self)))
    as [_|Hempty]; [|lia].
  rewrite Htz, bind_Ok.
  assert (Hlen : struct_pack [FH] [len (CreateAccountHeader.metadata self)]
                 = Raise StructError).
  { apply (struct_pack_refuses _ _ 0 FH
             (len (CreateAccountHeader.metadata self)));
      [reflexivity | reflexivity |].
    cbn [pack_one len]. apply pack_int_raise. lia. }
  rewrite Hlen.
  match goal with
  | |- context [struct_pack (FH :: FH :: ?fs) ?vs] =>
      destruct (struct_pack (FH :: FH :: fs) vs) as [structured|e] eqn:Hpack
  end.
  - reflexivity.
  - apply struct_pack_raise in Hpack. now subst.
Qed.

Lemma CreateAccountHeader_to_binary_too_many_witness :
  CreateAccountHeader.to_binary sample_enum
    {| CreateAccountHeader.pubKey := [x01; x02];
       CreateAccountHeader.timezone := lit "UTC";
       CreateAccountHeader.metadata :=
         (fun i => ([N.of_nat i], [])) <$> seq 0 (Z.to_nat 65536) |}
  = Raise StructError.
Proof.
  apply CreateAccountHeader_to_binary_too_many;
    cbn [CreateAccountHeader.timezone CreateAccountHeader.metadata].
  - now eexists.
  - rewrite length_fmap, length_seq. lia.
Defined.

(** *** CreateAsset, construction and the other kinds *)

Lemma bind_ret {A} (m : result A) : (m ≫= Ok) = m.
Proof. now destruct m. Qed.

Lemma CreateAssetHeader_init_inv
    (derive : str -> str -> pyval -> str -> AssetType.t -> str)
    (name : str) (supply : pyval) (kind reference issuer : str)
    (prec : pyval) (self : CreateAssetHeader.t) :
  CreateAssetHeader.__init__ derive name supply kind reference issuer prec
  = Ok self ->
  returns (AssetType.__init__ (asset_type_dict kind prec))
  /\ CreateAssetHeader.assetName self = name
  /\ py_int supply = Ok (CreateAssetHeader.supply self)
  /\ CreateAssetHeader.reference self = reference
  /\ encode kind = Ok (AssetTypeParams.tag (CreateAssetHeader.assetType self))
  /\ AssetTypeParams.contents (CreateAssetHeader.assetType self) = prec.
Proof.
  unfold CreateAssetHeader.__init__, AssetTypeParams.__init__.
  destruct (AssetType.__init__ _) as [asset_type_|]; [|discriminate].
  destruct (py_int supply) as [supply_|]; [|discriminate].
  destruct (encode kind) as [tag|]; [|discriminate].
  rewrite !bind_Ok. intros [= <-]. cbn. split; [now eexists | auto].
Qed.

(** X20. What the constructor checks: the kind and the precision, as
    [AssetType] does, and the supply, through [int(supply)].  For a
    supply that is a number, a header is constructed exactly when the
    asset type is and [int(supply)] returns (it refuses an infinity and
    a NaN); an error of the asset type is the constructor's error; and
    the stored supply is [int(supply)]: an integer of any sign and size
    is stored as it is. *)
Theorem CreateAssetHeader_init_returns_iff
    (derive : str -> str -> pyval -> str -> AssetType.t -> str)
    (name : str) (supply : pyval) (kind reference issuer : str)
    (prec : pyval) :
  is_number supply ->
  let header :=
    CreateAssetHeader.__init__ derive name supply kind reference issuer
      prec in
  (returns header <->
     returns (AssetType.__init__ (asset_type_dict kind prec))
     /\ returns (py_int supply))
  /\ (forall e, AssetType.__init__ (asset_type_dict kind prec) = Raise e ->
      header = Raise e)
  /\ (forall self, header = Ok self ->
      py_int supply = Ok (CreateAssetHeader.supply self))
  /\ (forall z, supply = PyInt z -> forall self, header = Ok self ->
      CreateAssetHeader.supply self = z).
Proof.
  intros _ header. unfold header. split; [split|split; [|split]].
  - intros [self Hself].
    apply CreateAssetHeader_init_inv in Hself as (Hty & _ & Hs & _).
    split; [exact Hty | eexists; exact Hs].
  - intros [[asset_type Hty] [supply_ Hs]].
    unfold CreateAssetHeader.__init__, AssetTypeParams.__init__.
    rewrite Hty, bind_Ok, Hs, bind_Ok.
    apply AssetType_init_inv in Hty as [(-> & _) | (Hk & _)];
      [|destruct (non_fractional_kind _ Hk) as [-> | ->]];
      (eexists; reflexivity).
  - intros e Hty. unfold CreateAssetHeader.__init__. now rewrite Hty.
  - intros self Hself.
    now apply CreateAssetHeader_init_inv in Hself as (_ & _ & Hs & _).
  - intros z -> self Hself.
    apply CreateAssetHeader_init_inv in Hself as (_ & _ & Hs & _).
    now injection Hs.
Qed.

Lemma CreateAssetHeader_init_returns_iff_witness :
  returns (CreateAssetHeader.__init__ sample_derive [] (PyInt (-1))
             (lit "Binary") [] [] PyNone)
  /\ ~ returns (CreateAssetHeader.__init__ sample_derive (lit "gold")
                  (PyFloat (S754_infinity false))
                  (lit "Binary") (lit "Token") addr_zero PyNone)
  /\ ~ returns (CreateAssetHeader.__init__ sample_derive (lit "gold")
                  (PyInt 100)
                  (lit "Binary") (lit "Token") addr_zero (PyInt 2)).
Proof.
  split; [|split].
  - apply (CreateAssetHeader_init_returns_iff sample_derive [] (PyInt (-1))
             (lit "Binary") [] [] PyNone I).
    split; eexists; reflexivity.
  - intros Hret.
    apply (CreateAssetHeader_init_returns_iff sample_derive (lit "gold")
             (PyFloat (S754_infinity false)) (lit "Binary") (lit "Token")
             addr_zero PyNone I) in Hret as [_ [z Hz]].
    discriminate Hz.
  - intros Hret.
    apply (CreateAssetHeader_init_returns_iff sample_derive (lit "gold")
             (PyInt 100) (lit "Binary") (lit "Token") addr_zero (PyInt 2) I)
      in Hret as [[a Ha] _].
    discriminate Ha.
Defined.

(** X21. The supply is checked only when the header is encoded: a header
    constructed with a supply that is negative or beyond 64 unsigned
    bits raises [struct.error] in [to_binary]. *)
Theorem CreateAssetHeader_supply_refused_at_encoding
    (derive : str -> str -> pyval -> str -> AssetType.t -> str)
    (enum : enum_module) (b58decode : str -> result bytes)
    (name : str) (supply : Z) (kind reference issuer : str) (prec : pyval)
    (self : CreateAssetHeader.t) :
  CreateAssetHeader.__init__ derive name (PyInt supply) kind reference issuer
    prec = Ok self ->
  ~ 0 <= supply <= 2 ^ 64 - 1 ->
  returns (b58decode (CreateAssetHeader.assetAddr self)) ->
  returns (encode name) -> returns (encode reference) ->
  CreateAssetHeader.to_binary enum b58decode self = Raise StructError.
Proof.
  intros Hinit Hsupply [addr Haddr] [name_enc Hname] [ref_enc Href].
  apply CreateAssetHeader_init_inv in Hinit as (_ & Hn & [= Hs] & Hr & _ & _).
  unfold CreateAssetHeader.to_binary. cbv zeta.
  rewrite Hn, <- Hs, Hr, Haddr, Hname, Href.
  assert (Hne : py_eq
                  (PyBytes (AssetTypeParams.tag
                              (CreateAssetHeader.assetType self)))
                  (PyStr (lit "Fractional")) = false)
    by (apply py_eq_false; [cbn; tauto | discriminate]).
  rewrite Hne, !bind_Ok.
  apply (struct_pack_refuses _ _ 4 FQ (PyInt supply));
    [reflexivity | reflexivity |].
  cbn [pack_one]. now apply pack_int_raise.
Qed.

Lemma CreateAssetHeader_supply_refused_at_encoding_witness :
  exists self,
    CreateAssetHeader.__init__ sample_derive (lit "gold") (PyInt (-1))
      (lit "Discrete") (lit "Token") addr_zero PyNone = Ok self
    /\ CreateAssetHeader.to_binary sample_enum base58_b58decode self
       = Raise StructError.
Proof.
  eexists. split; [reflexivity|].
  apply (CreateAssetHeader_supply_refused_at_encoding sample_derive
           sample_enum base58_b58decode (lit "gold") (-1) (lit "Discrete")
           (lit "Token") addr_zero PyNone).
  - reflexivity.
  - lia.
  - eexists. vm_compute. reflexivity.
  - now eexists.
  - now eexists.
Defined.

(** X22. For the Discrete and Binary kinds (ASCII name and reference) the
    encoder writes the specified layout: kind tag, 32 address bytes,
    length-prefixed name, supply on eight bytes, the constant 1 on two
    bytes, length-prefixed reference, length-prefixed kind name. *)
Theorem CreateAssetHeader_to_binary_non_fractional
    (derive : str -> str -> pyval -> str -> AssetType.t -> str)
    (enum : enum_module) (b58decode : str -> result bytes)
    (name : str) (supply : Z) (kind reference issuer : str) (prec : pyval)
    (self : CreateAssetHeader.t) :
  CreateAssetHeader.__init__ derive name (PyInt supply) kind reference issuer
    prec = Ok self ->
  kind <> lit "Fractional" ->
  ascii_text name -> ascii_text reference ->
  CreateAssetHeader.to_binary enum b58decode self
  = CreateAssetHeader_to_binary_claimed enum b58decode self.
Proof.
  intros Hinit Hkind Hname Href.
  apply CreateAssetHeader_init_inv in Hinit
    as ([asset_type Hty] & Hn & _ & Hr & Htag & _).
  apply AssetType_init_inv in Hty as [(-> & _) | (Hk & _)]; [done|].
  unfold CreateAssetHeader.to_binary, CreateAssetHeader_to_binary_claimed.
  cbv zeta. rewrite Hn, Hr.
  rewrite (encode_ascii name Hname), (encode_ascii reference Href).
  assert (Hne : py_eq
                  (PyBytes (AssetTypeParams.tag
                              (CreateAssetHeader.assetType self)))
                  (PyStr (lit "Fractional")) = false)
    by (apply py_eq_false; [cbn; tauto | discriminate]).
  rewrite Hne. cbv iota.
  destruct (b58decode (CreateAssetHeader.assetAddr self)) as [addr|];
    [|reflexivity].
  rewrite !bind_Ok. unfold len. rewrite !length_fmap.
  destruct (decide (AssetTypeParams.tag (CreateAssetHeader.assetType self)
                    = list_byte_of_string "Fractional")) as [Heq|_].
  - rewrite Heq in Htag.
    destruct (non_fractional_kind _ Hk) as [-> | ->]; discriminate Htag.
  - symmetry. apply bind_ret.
Qed.

Lemma CreateAssetHeader_to_binary_non_fractional_witness :
  exists self,
    CreateAssetHeader.__init__ sample_derive (lit "gold") (PyInt 100)
      (lit "Discrete") (lit "Token") addr_zero PyNone = Ok self
    /\ CreateAssetHeader.to_binary sample_enum base58_b58decode self
       = Ok ([x03; xeb] ++ replicate 32 x00
             ++ [x00; x04] ++ list_byte_of_string "gold"
             ++ be_bytes 8 100 ++ [x00; x01]
             ++ [x00; x05] ++ list_byte_of_string "Token"
             ++ [x00; x08] ++ list_byte_of_string "Discrete").
Proof.
  eexists. split; [reflexivity|].
  rewrite (CreateAssetHeader_to_binary_non_fractional sample_derive
             sample_enum base58_b58decode (lit "gold") 100 (lit "Discrete")
             (lit "Token") addr_zero PyNone).
  - vm_compute. reflexivity.
  - reflexivity.
  - discriminate.
  - unfold ascii_text. repeat constructor.
  - unfold ascii_text. repeat constructor.
Defined.

(** *** AssetType, other dictionaries *)

(** X23. What the constructor does with an incomplete or ill-typed
    dictionary: without the key [type] it raises [KeyError]; with a
    recognized kind and no key [precision] it raises [KeyError]; with
    an unrecognized kind it raises the invalid-asset-type error whether
    or not there is a precision; with a kind that is not text it raises
    [TypeError]. *)
Theorem AssetType_init_incomplete (d : gmap string pyval) :
  (d !! "type" = None -> AssetType.__init__ d = Raise KeyError)
  /\ (forall kind,
        d !! "type" = Some (PyStr kind) ->
        kind ∈ [lit "Fractional"; lit "Discrete"; lit "Binary"] ->
        d !! "precision" = None ->
        AssetType.__init__ d = Raise KeyError)
  /\ (forall kind,
        d !! "type" = Some (PyStr kind) ->
        kind ∉ [lit "Fractional"; lit "Discrete"; lit "Binary"] ->
        AssetType.__init__ d = Raise (invalid_asset_type kind))
  /\ (forall v,
        d !! "type" = Some v -> (forall kind, v <> PyStr kind) ->
        AssetType.__init__ d = Raise TypeError).
Proof.
  unfold AssetType.__init__, kw_getitem. repeat split.
  - intros ->. reflexivity.
  - intros kind -> Hkind ->. rewrite bind_Ok.
    assert (Hin : py_in (PyStr kind) AssetType.asset_types = true).
    { apply py_in_true; [exact asset_types_not_numbers|].
      unfold AssetType.asset_types.
      repeat (apply elem_of_cons in Hkind as [-> | Hkind]; [elem_of_list|]).
      now apply elem_of_nil in Hkind. }
    rewrite Hin. now destruct (py_eq _ _).
  - intros kind -> Hkind. rewrite bind_Ok.
    assert (Hin : py_in (PyStr kind) AssetType.asset_types = false).
    { apply not_true_is_false.
      rewrite (py_in_true _ _ asset_types_not_numbers).
      unfold AssetType.asset_types. intros Hin. apply Hkind.
      repeat (apply elem_of_cons in Hin as [[= ->] | Hin]; [elem_of_list|]).
      now apply elem_of_nil in Hin. }
    now rewrite Hin.
  - intros v -> Hv. rewrite bind_Ok.
    assert (Hin : py_in v AssetType.asset_types = false).
    { apply not_true_is_false.
      rewrite (py_in_true _ _ asset_types_not_numbers).
      unfold AssetType.asset_types. intros Hin.
      repeat (apply elem_of_cons in Hin as [-> | Hin]; [now eapply Hv|]).
      now apply elem_of_nil in Hin. }
    rewrite Hin. destruct v as [|z|f|s|b|cls]; try reflexivity.
    now destruct (Hv s).
Qed.

Lemma AssetType_init_incomplete_witness :
  AssetType.__init__ {["type" := PyStr (lit "Discrete")]} = Raise KeyError
  /\ AssetType.__init__ {["type" := PyStr (lit "Bond")]}
     = Raise (invalid_asset_type (lit "Bond"))
  /\ AssetType.__init__ {["type" := PyNone]} = Raise TypeError.
Proof.
  split; [|split].
  - destruct (AssetType_init_incomplete {["type" := PyStr (lit "Discrete")]})
      as (_ & Hprec & _).
    apply (Hprec (lit "Discrete")); [reflexivity | elem_of_list | reflexivity].
  - destruct (AssetType_init_incomplete {["type" := PyStr (lit "Bond")]})
      as (_ & _ & Hkind & _).
    apply (Hkind (lit "Bond")); [reflexivity|].
    intros Hin.
    repeat (apply elem_of_cons in Hin as [Hin|Hin]; [discriminate|]).
    now apply elem_of_nil in Hin.
  - destruct (AssetType_init_incomplete {["type" := PyNone]})
      as (_ & _ & _ & Htype).
    apply (Htype PyNone); [reflexivity | discriminate].
Defined.

Lemma Ok_inj {A} (x y : A) : Ok x = Ok y -> x = y.
Proof. now intros [= ->]. Qed.

Lemma be_bytes_8_inj (p q : Z) :
  0 <= p <= 2 ^ 63 - 1 -> 0 <= q <= 2 ^ 63 - 1 ->
  be_bytes 8 p = be_bytes 8 q -> p = q.
Proof.
  intros Hp Hq Heq. apply (f_equal int64_of_bytes) in Heq.
  now rewrite !int64_of_be_bytes in Heq by lia.
Qed.

(** X24. The encoding tells constructed asset types apart: when two of
    them encode to the same bytes, they have the same kind and the same
    precision. *)
Theorem AssetType_to_binary_injective
    (kind1 kind2 : str) (prec1 prec2 : pyval) (self1 self2 : AssetType.t)
    (out : bytes) :
  AssetType.__init__ (asset_type_dict kind1 prec1) = Ok self1 ->
  AssetType.__init__ (asset_type_dict kind2 prec2) = Ok self2 ->
  AssetType.to_binary self1 = Ok out ->
  AssetType.to_binary self2 = Ok out ->
  kind1 = kind2 /\ prec1 = prec2 /\ self1 = self2.
Proof.
  intros H1 H2 Hout1 Hout2.
  apply AssetType_init_inv in H1, H2.
  destruct H1 as [(-> & Hr1 & ->) | (Hk1 & -> & ->)].
  - destruct (precision_in_range_cases _ Hr1) as [(p & -> & Hp) | (f & ->)].
    2:{ rewrite (AssetType_to_binary_float (lit "Fractional")
                   (list_byte_of_string "Fractional")) in Hout1;
          [discriminate Hout1 | reflexivity | cbn; lia]. }
    rewrite (AssetType_to_binary_precision (lit "Fractional")
               (list_byte_of_string "Fractional") p) in Hout1;
      [|reflexivity | cbn; lia | lia].
    destruct H2 as [(-> & Hr2 & ->) | (Hk2 & -> & ->)].
    + destruct (precision_in_range_cases _ Hr2)
        as [(q & -> & Hq) | (f & ->)].
      2:{ rewrite (AssetType_to_binary_float (lit "Fractional")
                     (list_byte_of_string "Fractional")) in Hout2;
            [discriminate Hout2 | reflexivity | cbn; lia]. }
      rewrite (AssetType_to_binary_precision (lit "Fractional")
                 (list_byte_of_string "Fractional") q) in Hout2;
        [|reflexivity | cbn; lia | lia].
      rewrite <- Hout2 in Hout1. apply Ok_inj, app_inv_head in Hout1.
      apply be_bytes_8_inj in Hout1 as ->; [auto | lia | lia].
    + exfalso. apply Ok_inj in Hout1. apply (f_equal length) in Hout1.
      rewrite length_app, length_be_bytes in Hout1.
      destruct (non_fractional_kind _ Hk2) as [-> | ->];
        vm_compute in Hout2; apply Ok_inj in Hout2; subst out;
        vm_compute in Hout1; discriminate Hout1.
  - destruct H2 as [(-> & Hr2 & ->) | (Hk2 & -> & ->)].
    + exfalso.
      destruct (precision_in_range_cases _ Hr2)
        as [(q & -> & Hq) | (f & ->)].
      2:{ rewrite (AssetType_to_binary_float (lit "Fractional")
                     (list_byte_of_string "Fractional")) in Hout2;
            [discriminate Hout2 | reflexivity | cbn; lia]. }
      rewrite (AssetType_to_binary_precision (lit "Fractional")
                 (list_byte_of_string "Fractional") q) in Hout2;
        [|reflexivity | cbn; lia | lia].
      apply Ok_inj in Hout2. apply (f_equal length) in Hout2.
      rewrite length_app, length_be_bytes in Hout2.
      destruct (non_fractional_kind _ Hk1) as [-> | ->];
        vm_compute in Hout1; apply Ok_inj in Hout1; subst out;
        vm_compute in Hout2; discriminate Hout2.
    + destruct (non_fractional_kind _ Hk1) as [-> | ->],
               (non_fractional_kind _ Hk2) as [-> | ->];
        try (split; [reflexivity | split; reflexivity]);
        exfalso; vm_compute in Hout1; apply Ok_inj in Hout1; subst out;
        vm_compute in Hout2; discriminate Hout2.
Qed.

Lemma AssetType_to_binary_injective_witness :
  ~ exists out,
      AssetType.to_binary
        {| AssetType.type := PyStr (lit "Fractional");
           AssetType.precision := PyInt 2 |} = Ok out
      /\ AssetType.to_binary
           {| AssetType.type := PyStr (lit "Fractional");
              AssetType.precision := PyInt 3 |} = Ok out.
Proof.
  intros (out & Hout2 & Hout3).
  assert (H2 : AssetType.__init__
                 (asset_type_dict (lit "Fractional") (PyInt 2))
               = Ok {| AssetType.type := PyStr (lit "Fractional");
                       AssetType.precision := PyInt 2 |})
    by (vm_compute; reflexivity).
  assert (H3 : AssetType.__init__
                 (asset_type_dict (lit "Fractional") (PyInt 3))
               = Ok {| AssetType.type := PyStr (lit "Fractional");
                       AssetType.precision := PyInt 3 |})
    by (vm_compute; reflexivity).
  pose proof (AssetType_to_binary_injective _ _ _ _ _ _ _ H2 H3 Hout2 Hout3)
    as (_ & Hprec & _).
  discriminate Hprec.
Defined.

(** *** Bind, the proof bytes *)

(** X25. The proof is written whole at the end of the record: the bytes
    after the first 66 are the proof, whatever its length. *)
Theorem BindHeader_to_binary_proof_remainder
    (enum : enum_module) (self : BindHeader.t) (out : bytes) :
  BindHeader.to_binary enum self = Ok out ->
  drop 66 out = BindHeader.proof self
  /\ length out = (66 + length (BindHeader.proof self))%nat.
Proof.
  unfold BindHeader.to_binary. intros Hout. bind_cases Hout.
  pose proof (length_struct_pack _ _ _ Hout) as Hlen.
  apply struct_pack_inv in Hout as (ptag & r1 & Htag & Hr1 & ->).
  apply struct_pack_inv in Hr1 as (pc & r2 & Hc & Hr2 & ->).
  apply struct_pack_inv in Hr2 as (pa & r3 & Ha & Hr3 & ->).
  rewrite struct_pack_s_last in Hr3. injection Hr3 as <-.
  apply length_pack_one in Htag, Hc, Ha. cbn [calcsize foldr] in Htag, Hc, Ha.
  split; [|rewrite Hlen; cbn [calcsize foldr]; lia].
  rewrite (app_assoc ptag), (app_assoc (ptag ++ pc)).
  apply drop_app_length'. rewrite !length_app. lia.
Qed.

Lemma BindHeader_to_binary_proof_remainder_witness :
  exists out,
    BindHeader.to_binary sample_enum
      (BindHeader.__init__ addr_ff addr_zero [x01; x02; x03]) = Ok out
    /\ drop 66 out = [x01; x02; x03].
Proof.
  eexists. split; [vm_compute; reflexivity|].
  apply (BindHeader_to_binary_proof_remainder sample_enum
           (BindHeader.__init__ addr_ff addr_zero [x01; x02; x03])).
  vm_compute. reflexivity.
Defined.
